(** * Ledger reconciliation engine of Project_ocho_uno.py

    A shallow embedding of the supplier ledger: transaction rows, bank
    deposits and debit notes, the reconciliation function
    [recalculate_accumulated_balances] and the add / edit / delete
    operations on transaction rows and debit notes.

    Modelling conventions.
    - A pandas DataFrame is the list of its rows, in index order; the
      index is the position in the list.
    - Python floats are modelled as exact rationals in canonical form
      ([Qc]): rounding is not modelled.
    - A numeric cell is either a number or [NaN]; [NaN] stands for any
      content that [pd.to_numeric(..., errors='coerce')] turns into NaN
      (None, NaN, text that is not a number).
    - A date cell is [option date]; [None] is [NaT], the result of
      [pd.to_datetime(..., errors='coerce')] on anything that is not a
      date.  Under this reading the coercion of the "Fecha" columns at
      the start of the reconciliation is the identity.
    - Streamlit output ([st.error], [st.success]) and the calls to
      [save_dataframe] are recorded in a trace of events; the outcome of
      a save is an input of the operation that performs it. *)

From Stdlib Require Import QArith Qcanon OrderedTypeEx.
From stdpp Require Import gmap strings list numbers sorting pretty.

Local Open Scope Z_scope.

(** ** 1. Constants *)

Definition INITIAL_ACCUMULATED_BALANCE : Qc := Q2Qc 176.01.
Definition PRODUCT_NAME : string := "Pollo".
Definition LBS_PER_KG : Qc := Q2Qc 2.20462.
Definition BALANCE_INICIAL : string := "BALANCE_INICIAL".

(** ** 2. Dates *)

Record date := mk_date { year : Z; month : Z; day : Z }.

Global Instance date_eq_dec : EqDecision date.
Proof. solve_decision. Defined.

Global Instance date_countable : Countable date.
Proof.
  apply (inj_countable' (λ d, (year d, month d, day d))
                        (λ t, mk_date t.1.1 t.1.2 t.2)).
  by intros [].
Defined.

(** Chronological order, as Python compares [datetime.date] values. *)
Definition date_ltb (a b : date) : bool :=
  (year a <? year b)
  || ((year a =? year b)
      && ((month a <? month b) || ((month a =? month b) && (day a <? day b)))).

Definition date_leb (a b : date) : bool := negb (date_ltb b a).

(** [d <= f] for a date cell [f]: every comparison with NaT is false. *)
Definition date_le_cell (d : date) (f : option date) : bool :=
  match f with Some d' => date_leb d d' | None => false end.

(** ** 3. Numeric cells *)

Inductive cell := Num (q : Qc) | NaN.

Global Instance cell_eq_dec : EqDecision cell.
Proof. solve_decision. Defined.

(** [pd.to_numeric(c, errors='coerce').fillna(v)] on one cell. *)
Definition fillna (v : Qc) (c : cell) : cell :=
  match c with Num q => Num q | NaN => Num v end.

(** The value a cell contributes to a pandas [sum] (NaN is skipped). *)
Definition cell_value (c : cell) : Qc :=
  match c with Num q => q | NaN => Q2Qc 0 end.

(** Element-wise arithmetic on columns: NaN propagates. *)
Definition cell_op (f : Qc → Qc → Qc) (a b : cell) : cell :=
  match a, b with Num x, Num y => Num (f x y) | _, _ => NaN end.

Definition cell_scale (a : cell) (k : Qc) : cell :=
  match a with Num x => Num (x * k)%Qc | NaN => NaN end.

(** A cell of type Optional[Qc] coming from a left merge or a dict lookup. *)
Definition of_lookup (o : option Qc) : cell :=
  match o with Some q => Num q | None => NaN end.

Definition sumQc (l : list Qc) : Qc := foldr Qcplus (Q2Qc 0) l.

Definition sum_skipna (l : list cell) : Qc := sumQc (cell_value <$> l).

(** [numpy.cumsum]: running sums from left to right. *)
Fixpoint cumsum_from (acc : Qc) (l : list Qc) : list Qc :=
  match l with
  | [] => []
  | x :: l' => (acc + x)%Qc :: cumsum_from (acc + x)%Qc l'
  end.

Definition cumsum (l : list Qc) : list Qc := cumsum_from (Q2Qc 0) l.

(** [int(x)] on a number: truncation towards zero. *)
Definition py_int (q : Qc) : Qc :=
  Qc_of_Z (Z.quot (Qnum (this q)) (Zpos (Qden (this q)))).

(** ** 4. Records *)

(** A row of the "proveedores" table (COLUMNS_DATA). *)
Record row := mk_row {
  N_ : string;                      (* "N" *)
  Fecha : option date;              (* "Fecha" *)
  Proveedor : string;               (* "Proveedor" *)
  Producto : option string;         (* "Producto" *)
  Cantidad : cell;                  (* "Cantidad" *)
  Peso_Salida : cell;               (* "Peso Salida (kg)" *)
  Peso_Entrada : cell;              (* "Peso Entrada (kg)" *)
  Tipo_Documento : option string;   (* "Tipo Documento" *)
  Cantidad_de_gavetas : cell;       (* "Cantidad de gavetas" *)
  Precio_Unitario : cell;           (* "Precio Unitario ($)" *)
  Promedio : cell;                  (* "Promedio" *)
  Kilos_Restantes : cell;           (* "Kilos Restantes" *)
  Libras_Restantes : cell;          (* "Libras Restantes" *)
  Total : cell;                     (* "Total ($)" *)
  Monto_Deposito : cell;            (* "Monto Deposito" *)
  Saldo_diario : cell;              (* "Saldo diario" *)
  Saldo_Acumulado : cell            (* "Saldo Acumulado" *)
}.

Global Instance row_eq_dec : EqDecision row.
Proof. solve_decision. Defined.

(** A row of the "depositos" table (COLUMNS_DEPOSITS). *)
Module Dep.
Record t := mk {
  Fecha : option date;
  Empresa : string;
  Agencia : string;
  Monto : cell;
  Documento : string;
  N_ : string
}.
End Dep.

(** A row of the "notas_debito" table (COLUMNS_DEBIT_NOTES). *)
Module Nota.
Record t := mk {
  Fecha : option date;
  Libras_calculadas : cell;
  Descuento : cell;
  Descuento_posible : cell;
  Descuento_real : cell
}.
End Nota.

Global Instance dep_eq_dec : EqDecision Dep.t.
Proof. solve_decision. Defined.

Global Instance nota_eq_dec : EqDecision Nota.t.
Proof. solve_decision. Defined.

(** Column assignment on one row, [row[col] = v]. *)
Definition set_N (v : string) (r : row) : row :=
  mk_row v (Fecha r) (Proveedor r) (Producto r) (Cantidad r) (Peso_Salida r)
    (Peso_Entrada r) (Tipo_Documento r) (Cantidad_de_gavetas r)
    (Precio_Unitario r) (Promedio r) (Kilos_Restantes r) (Libras_Restantes r)
    (Total r) (Monto_Deposito r) (Saldo_diario r) (Saldo_Acumulado r).
Definition set_Fecha (v : option date) (r : row) : row :=
  mk_row (N_ r) v (Proveedor r) (Producto r) (Cantidad r) (Peso_Salida r)
    (Peso_Entrada r) (Tipo_Documento r) (Cantidad_de_gavetas r)
    (Precio_Unitario r) (Promedio r) (Kilos_Restantes r) (Libras_Restantes r)
    (Total r) (Monto_Deposito r) (Saldo_diario r) (Saldo_Acumulado r).
Definition set_Proveedor (v : string) (r : row) : row :=
  mk_row (N_ r) (Fecha r) v (Producto r) (Cantidad r) (Peso_Salida r)
    (Peso_Entrada r) (Tipo_Documento r) (Cantidad_de_gavetas r)
    (Precio_Unitario r) (Promedio r) (Kilos_Restantes r) (Libras_Restantes r)
    (Total r) (Monto_Deposito r) (Saldo_diario r) (Saldo_Acumulado r).
Definition set_Producto (v : option string) (r : row) : row :=
  mk_row (N_ r) (Fecha r) (Proveedor r) v (Cantidad r) (Peso_Salida r)
    (Peso_Entrada r) (Tipo_Documento r) (Cantidad_de_gavetas r)
    (Precio_Unitario r) (Promedio r) (Kilos_Restantes r) (Libras_Restantes r)
    (Total r) (Monto_Deposito r) (Saldo_diario r) (Saldo_Acumulado r).
Definition set_Cantidad (v : cell) (r : row) : row :=
  mk_row (N_ r) (Fecha r) (Proveedor r) (Producto r) v (Peso_Salida r)
    (Peso_Entrada r) (Tipo_Documento r) (Cantidad_de_gavetas r)
    (Precio_Unitario r) (Promedio r) (Kilos_Restantes r) (Libras_Restantes r)
    (Total r) (Monto_Deposito r) (Saldo_diario r) (Saldo_Acumulado r).
Definition set_Peso_Salida (v : cell) (r : row) : row :=
  mk_row (N_ r) (Fecha r) (Proveedor r) (Producto r) (Cantidad r) v
    (Peso_Entrada r) (Tipo_Documento r) (Cantidad_de_gavetas r)
    (Precio_Unitario r) (Promedio r) (Kilos_Restantes r) (Libras_Restantes r)
    (Total r) (Monto_Deposito r) (Saldo_diario r) (Saldo_Acumulado r).
Definition set_Peso_Entrada (v : cell) (r : row) : row :=
  mk_row (N_ r) (Fecha r) (Proveedor r) (Producto r) (Cantidad r)
    (Peso_Salida r) v (Tipo_Documento r) (Cantidad_de_gavetas r)
    (Precio_Unitario r) (Promedio r) (Kilos_Restantes r) (Libras_Restantes r)
    (Total r) (Monto_Deposito r) (Saldo_diario r) (Saldo_Acumulado r).
Definition set_Tipo_Documento (v : option string) (r : row) : row :=
  mk_row (N_ r) (Fecha r) (Proveedor r) (Producto r) (Cantidad r)
    (Peso_Salida r) (Peso_Entrada r) v (Cantidad_de_gavetas r)
    (Precio_Unitario r) (Promedio r) (Kilos_Restantes r) (Libras_Restantes r)
    (Total r) (Monto_Deposito r) (Saldo_diario r) (Saldo_Acumulado r).
Definition set_Cantidad_de_gavetas (v : cell) (r : row) : row :=
  mk_row (N_ r) (Fecha r) (Proveedor r) (Producto r) (Cantidad r)
    (Peso_Salida r) (Peso_Entrada r) (Tipo_Documento r) v
    (Precio_Unitario r) (Promedio r) (Kilos_Restantes r) (Libras_Restantes r)
    (Total r) (Monto_Deposito r) (Saldo_diario r) (Saldo_Acumulado r).
Definition set_Precio_Unitario (v : cell) (r : row) : row :=
  mk_row (N_ r) (Fecha r) (Proveedor r) (Producto r) (Cantidad r)
    (Peso_Salida r) (Peso_Entrada r) (Tipo_Documento r)
    (Cantidad_de_gavetas r) v (Promedio r) (Kilos_Restantes r)
    (Libras_Restantes r) (Total r) (Monto_Deposito r) (Saldo_diario r)
    (Saldo_Acumulado r).
Definition set_Promedio (v : cell) (r : row) : row :=
  mk_row (N_ r) (Fecha r) (Proveedor r) (Producto r) (Cantidad r)
    (Peso_Salida r) (Peso_Entrada r) (Tipo_Documento r)
    (Cantidad_de_gavetas r) (Precio_Unitario r) v (Kilos_Restantes r)
    (Libras_Restantes r) (Total r) (Monto_Deposito r) (Saldo_diario r)
    (Saldo_Acumulado r).
Definition set_Kilos_Restantes (v : cell) (r : row) : row :=
  mk_row (N_ r) (Fecha r) (Proveedor r) (Producto r) (Cantidad r)
    (Peso_Salida r) (Peso_Entrada r) (Tipo_Documento r)
    (Cantidad_de_gavetas r) (Precio_Unitario r) (Promedio r) v
    (Libras_Restantes r) (Total r) (Monto_Deposito r) (Saldo_diario r)
    (Saldo_Acumulado r).
Definition set_Libras_Restantes (v : cell) (r : row) : row :=
  mk_row (N_ r) (Fecha r) (Proveedor r) (Producto r) (Cantidad r)
    (Peso_Salida r) (Peso_Entrada r) (Tipo_Documento r)
    (Cantidad_de_gavetas r) (Precio_Unitario r) (Promedio r)
    (Kilos_Restantes r) v (Total r) (Monto_Deposito r) (Saldo_diario r)
    (Saldo_Acumulado r).
Definition set_Total (v : cell) (r : row) : row :=
  mk_row (N_ r) (Fecha r) (Proveedor r) (Producto r) (Cantidad r)
    (Peso_Salida r) (Peso_Entrada r) (Tipo_Documento r)
    (Cantidad_de_gavetas r) (Precio_Unitario r) (Promedio r)
    (Kilos_Restantes r) (Libras_Restantes r) v (Monto_Deposito r)
    (Saldo_diario r) (Saldo_Acumulado r).
Definition set_Monto_Deposito (v : cell) (r : row) : row :=
  mk_row (N_ r) (Fecha r) (Proveedor r) (Producto r) (Cantidad r)
    (Peso_Salida r) (Peso_Entrada r) (Tipo_Documento r)
    (Cantidad_de_gavetas r) (Precio_Unitario r) (Promedio r)
    (Kilos_Restantes r) (Libras_Restantes r) (Total r) v (Saldo_diario r)
    (Saldo_Acumulado r).
Definition set_Saldo_diario (v : cell) (r : row) : row :=
  mk_row (N_ r) (Fecha r) (Proveedor r) (Producto r) (Cantidad r)
    (Peso_Salida r) (Peso_Entrada r) (Tipo_Documento r)
    (Cantidad_de_gavetas r) (Precio_Unitario r) (Promedio r)
    (Kilos_Restantes r) (Libras_Restantes r) (Total r) (Monto_Deposito r) v
    (Saldo_Acumulado r).
Definition set_Saldo_Acumulado (v : cell) (r : row) : row :=
  mk_row (N_ r) (Fecha r) (Proveedor r) (Producto r) (Cantidad r)
    (Peso_Salida r) (Peso_Entrada r) (Tipo_Documento r)
    (Cantidad_de_gavetas r) (Precio_Unitario r) (Promedio r)
    (Kilos_Restantes r) (Libras_Restantes r) (Total r) (Monto_Deposito r)
    (Saldo_diario r) v.

(** [df[col] = f(df)], evaluated row by row. *)
Definition assign {A V : Type} (set : V → A → A) (f : A → V) (df : list A) : list A :=
  (λ r, set (f r) r) <$> df.

(** ** 5. DataFrame operations *)

Section frames.
Context {A : Type} (leb : A → A → bool).

(** [sort_values]: a stable sort, modelled by insertion from the right
    (an element is placed before the first element it does not exceed,
    hence before the equal elements that followed it in the input). *)
Fixpoint insert_sorted (x : A) (l : list A) : list A :=
  match l with
  | [] => [x]
  | y :: l' => if leb x y then x :: y :: l' else y :: insert_sorted x l'
  end.

Definition sort_values (l : list A) : list A := foldr insert_sorted [] l.

(** The order as a relation. *)
Definition le_of : relation A := λ x y, leb x y = true.

End frames.

Section groupby.
Context {K : Type} `{EqDecision K} (leb : K → K → bool).

(** The group keys of [df.groupby(keys)]: the distinct non-null keys, in
    ascending order (rows with a null key are dropped). *)
Definition group_keys (ks : list (option K)) : list K :=
  sort_values leb (remove_dups (omap id ks)).

(** [df.groupby(keys)[col].sum().reset_index()] on the pairs (key, col). *)
Definition groupby_sum (kv : list (option K * cell)) : list (K * Qc) :=
  (λ k, (k, sum_skipna (snd <$> filter (λ p, p.1 = Some k) kv)))
    <$> group_keys (fst <$> kv).

(** [pd.merge(left, right, how="left")] seen from one left row with key
    [k]: one output row for every right row with that key, in the order of
    the right frame, and one output row without right-hand value when there
    is none.  The right frames of the engine come from [groupby] and have
    no null key, so that a null left key matches nothing. *)
Definition merge_left {V : Type} (k : option K) (right : list (K * V))
  : list (option V) :=
  match filter (λ p, Some p.1 = k) right with
  | [] => [None]
  | matches => (λ p, Some p.2) <$> matches
  end.

(** The value found for a key in a frame with one row per key. *)
Fixpoint frame_lookup {V : Type} (k : K) (l : list (K * V)) : option V :=
  match l with
  | [] => None
  | (k', v) :: l' => if decide (k' = k) then Some v else frame_lookup k l'
  end.

Definition frame_lookup_cell {V : Type} (k : option K) (l : list (K * V))
  : option V :=
  match k with Some k' => frame_lookup k' l | None => None end.
End groupby.

(** [series.to_dict()]: a later entry overrides an earlier one. *)
Definition to_dict (l : list (date * Qc)) : gmap date Qc :=
  list_to_map (reverse l).

(** [series.map(dict)] on a date cell. *)
Definition map_dict (m : gmap date Qc) (f : option date) : cell :=
  of_lookup (f ≫= λ d, m !! d).

(** Orders used by the engine. *)
Definition key_leb (a b : date * string) : bool :=
  date_ltb a.1 b.1 || (bool_decide (a.1 = b.1) && String.leb a.2 b.2).

(** Order of the "Fecha" column in [sort_values]: NaT comes last. *)
Definition fecha_ltb (a b : option date) : bool :=
  match a, b with
  | Some x, Some y => date_ltb x y
  | Some _, None => true
  | None, _ => false
  end.

(** [sort_values(by=["Fecha", "N"], ascending=[True, True])]. *)
Definition row_leb (r1 r2 : row) : bool :=
  fecha_ltb (Fecha r1) (Fecha r2)
  || (bool_decide (Fecha r1 = Fecha r2) && String.leb (N_ r1) (N_ r2)).

(** ** 6. The reconciliation engine *)

Definition es_balance (r : row) : Prop := Proveedor r = BALANCE_INICIAL.

Global Instance es_balance_dec r : Decision (es_balance r).
Proof. unfold es_balance. apply _. Defined.

(** Lines 166-171: every numeric column goes through
    [pd.to_numeric(..., errors='coerce').fillna(0)]. *)
Definition coerce_numeric_cols (r : row) : row :=
  mk_row (N_ r) (Fecha r) (Proveedor r) (Producto r)
    (fillna (Q2Qc 0) (Cantidad r)) (fillna (Q2Qc 0) (Peso_Salida r))
    (fillna (Q2Qc 0) (Peso_Entrada r)) (Tipo_Documento r)
    (fillna (Q2Qc 0) (Cantidad_de_gavetas r))
    (fillna (Q2Qc 0) (Precio_Unitario r)) (fillna (Q2Qc 0) (Promedio r))
    (fillna (Q2Qc 0) (Kilos_Restantes r)) (fillna (Q2Qc 0) (Libras_Restantes r))
    (fillna (Q2Qc 0) (Total r)) (fillna (Q2Qc 0) (Monto_Deposito r))
    (fillna (Q2Qc 0) (Saldo_diario r)) (fillna (Q2Qc 0) (Saldo_Acumulado r)).

(** [row["Libras Restantes"] / row["Cantidad"] if row["Cantidad"] != 0 else 0] *)
Definition promedio_of (libras cantidad : cell) : cell :=
  if decide (cantidad = Num (Q2Qc 0)) then Num (Q2Qc 0)
  else cell_op Qcdiv libras cantidad.

(** Lines 173-181. *)
Definition derive_rows (ops : list row) : list row :=
  match ops with
  | [] => ops
  | _ =>
    let ops1 := assign set_Kilos_Restantes
                  (λ r, cell_op Qcminus (Peso_Salida r) (Peso_Entrada r)) ops in
    let ops2 := assign set_Libras_Restantes
                  (λ r, cell_scale (Kilos_Restantes r) LBS_PER_KG) ops1 in
    let ops3 := assign set_Promedio
                  (λ r, promedio_of (Libras_Restantes r) (Cantidad r)) ops2 in
    assign set_Total
      (λ r, cell_op Qcmult (Libras_Restantes r) (Precio_Unitario r)) ops3
  end.

Definition dep_key (f : option date) (e : string) : option (date * string) :=
  (λ d, (d, e)) <$> f.

(** Lines 184-186: deposits grouped by ("Fecha", "Empresa"). *)
Definition deposits_summary (df_deposits : list Dep.t) : list (date * string * Qc) :=
  groupby_sum key_leb
    ((λ d, (dep_key (Dep.Fecha d) (Dep.Empresa d), fillna (Q2Qc 0) (Dep.Monto d)))
       <$> df_deposits).

(** Lines 183-199: left merge of the summary on ("Fecha", "Proveedor"); the
    merged amount, 0 where there is none, becomes "Monto Deposito". *)
Definition merge_deposits (df_deposits : list Dep.t) (ops : list row) : list row :=
  match df_deposits with
  | [] => assign set_Monto_Deposito (λ _, Num (Q2Qc 0)) ops
  | _ =>
    r ← ops;
    (λ calculado, set_Monto_Deposito (fillna (Q2Qc 0) (of_lookup calculado)) r)
      <$> merge_left (dep_key (Fecha r) (Proveedor r))
                     (deposits_summary df_deposits)
  end.

(** Line 201: the per-row "Saldo diario". *)
Definition row_saldo_diario (ops : list row) : list row :=
  assign set_Saldo_diario
    (λ r, cell_op Qcminus (Monto_Deposito r) (Total r)) ops.

(** The operational rows as they stand after line 201. *)
Definition operaciones_201 (df_data : list row) (df_deposits : list Dep.t) : list row :=
  row_saldo_diario
    (merge_deposits df_deposits
       (derive_rows
          (coerce_numeric_cols <$> filter (λ r, ¬ es_balance r) df_data))).

Definition daily_ops_saldo (ops : list row) : list (date * Qc) :=
  groupby_sum date_leb ((λ r, (Fecha r, Saldo_diario r)) <$> ops).

Definition notes_by_date (df_notes : list Nota.t) : list (date * Qc) :=
  groupby_sum date_leb
    ((λ n, (Nota.Fecha n, fillna (Q2Qc 0) (Nota.Descuento_real n))) <$> df_notes).

(** Lines 203-214: the columns ("Fecha", "SaldoDiarioAjustado") of
    [full_daily_balances]. *)
Definition full_daily_balances (ops : list row) (df_notes : list Nota.t)
  : list (date * Qc) :=
  match df_notes with
  | [] => (λ p, (p.1, p.2)) <$> daily_ops_saldo ops
  | _ =>
    p ← daily_ops_saldo ops;
    (λ ajuste, (p.1, (p.2 + cell_value (fillna (Q2Qc 0) (of_lookup ajuste)))%Qc))
      <$> merge_left (Some p.1) (notes_by_date df_notes)
  end.

(** Line 216. *)
Definition sorted_daily_balances (ops : list row) (df_notes : list Nota.t)
  : list (date * Qc) :=
  sort_values (λ a b, date_leb a.1 b.1) (full_daily_balances ops df_notes).

(** Line 217: the columns ("Fecha", "Saldo Acumulado"). *)
Definition daily_acumulado (ops : list row) (df_notes : list Nota.t)
  : list (date * Qc) :=
  let fdb := sorted_daily_balances ops df_notes in
  zip (fst <$> fdb)
      ((λ c, (INITIAL_ACCUMULATED_BALANCE + c)%Qc) <$> cumsum (snd <$> fdb)).

Definition saldo_diario_map (ops : list row) (df_notes : list Nota.t) : gmap date Qc :=
  to_dict (sorted_daily_balances ops df_notes).

Definition saldo_acumulado_map (ops : list row) (df_notes : list Nota.t) : gmap date Qc :=
  to_dict (daily_acumulado ops df_notes).

(** Lines 222-224: the per-date values are written back on every row. *)
Definition broadcast (df_notes : list Nota.t) (ops : list row) : list row :=
  match ops with
  | [] => ops
  | _ =>
    let sdm := saldo_diario_map ops df_notes in
    let sam := saldo_acumulado_map ops df_notes in
    assign set_Saldo_Acumulado
      (λ r, fillna INITIAL_ACCUMULATED_BALANCE (map_dict sam (Fecha r)))
      (assign set_Saldo_diario
         (λ r, fillna (Q2Qc 0) (map_dict sdm (Fecha r))) ops)
  end.

(** Lines 227-232: the fixed fields of the balance row. *)
Definition fix_initial_balance (r : row) : row :=
  set_Fecha (Some (mk_date 1900 1 1))
    (set_N "00"
       (set_Total (Num (Q2Qc 0))
          (set_Monto_Deposito (Num (Q2Qc 0))
             (set_Saldo_diario (Num (Q2Qc 0))
                (set_Saldo_Acumulado (Num INITIAL_ACCUMULATED_BALANCE) r))))).

(** Lines 155-240, on the three frames: the new content of
    [st.session_state.data]. *)
Definition recalculate_data
    (df_data : list row) (df_deposits : list Dep.t) (df_notes : list Nota.t)
  : list row :=
  let df_initial_balance := filter es_balance df_data in
  let df_data_operaciones :=
    broadcast df_notes (operaciones_201 df_data df_deposits) in
  let df_data' :=
    match df_initial_balance with
    | [] => df_data_operaciones
    | _ => (fix_initial_balance <$> df_initial_balance) ++ df_data_operaciones
    end in
  sort_values row_leb df_data'.

(** ** 7. Session state and operations *)

(** The three tables of [st.session_state] and the flags set by the
    operations modelled below. *)
Record session := mk_session {
  data : list row;          (* st.session_state.data *)
  df : list Dep.t;          (* st.session_state.df *)
  notas : list Nota.t;      (* st.session_state.notas *)
  record_added : bool;
  record_deleted : bool;
  record_edited : bool;
  debit_note_added : bool;
  debit_note_edited : bool
}.

Definition with_data (v : list row) (st : session) : session :=
  mk_session v (df st) (notas st) (record_added st) (record_deleted st)
    (record_edited st) (debit_note_added st) (debit_note_edited st).
Definition with_notas (v : list Nota.t) (st : session) : session :=
  mk_session (data st) (df st) v (record_added st) (record_deleted st)
    (record_edited st) (debit_note_added st) (debit_note_edited st).
Definition with_record_added (v : bool) (st : session) : session :=
  mk_session (data st) (df st) (notas st) v (record_deleted st)
    (record_edited st) (debit_note_added st) (debit_note_edited st).
Definition with_record_deleted (v : bool) (st : session) : session :=
  mk_session (data st) (df st) (notas st) (record_added st) v
    (record_edited st) (debit_note_added st) (debit_note_edited st).
Definition with_record_edited (v : bool) (st : session) : session :=
  mk_session (data st) (df st) (notas st) (record_added st) (record_deleted st)
    v (debit_note_added st) (debit_note_edited st).
Definition with_debit_note_added (v : bool) (st : session) : session :=
  mk_session (data st) (df st) (notas st) (record_added st) (record_deleted st)
    (record_edited st) v (debit_note_edited st).
Definition with_debit_note_edited (v : bool) (st : session) : session :=
  mk_session (data st) (df st) (notas st) (record_added st) (record_deleted st)
    (record_edited st) (debit_note_added st) v.

(** What an operation shows to the user or sends to storage. *)
Inductive event :=
  | St_error (msg : string)
  | St_success (msg : string)
  | Save_dataframe (table_name : string).

(** [recalculate_accumulated_balances]: the "data" table is replaced by the
    recomputed one and handed to [save_dataframe]. *)
Definition recalculate_accumulated_balances (st : session) : session * list event :=
  (with_data (recalculate_data (data st) (df st) (notas st)) st,
   [Save_dataframe "proveedores"]).

(** The row created by [initialize_session_state] when none exists. *)
Definition fila_inicial_saldo : row :=
  mk_row "00" (Some (mk_date 1900 1 1)) BALANCE_INICIAL None NaN NaN NaN None
    NaN NaN NaN NaN NaN (Num (Q2Qc 0)) (Num (Q2Qc 0)) (Num (Q2Qc 0))
    (Num INITIAL_ACCUMULATED_BALANCE).

(** The content [load_dataframe] returns for the three tables. *)
Record database := mk_database {
  tbl_proveedores : list row;
  tbl_depositos : list Dep.t;
  tbl_notas_debito : list Nota.t
}.

(** The keys of [st.session_state] before initialization; [None] is a key
    that is not there yet. *)
Record raw_session := mk_raw_session {
  raw_data : option (list row);
  raw_df : option (list Dep.t);
  raw_notas : option (list Nota.t);
  raw_record_added : option bool;
  raw_record_deleted : option bool;
  raw_record_edited : option bool;
  raw_debit_note_added : option bool;
  raw_debit_note_edited : option bool
}.

Definition initialize_session_state (db : database) (ss : raw_session)
  : session * list event :=
  let '(data0, ev0) :=
    match raw_data ss with
    | Some d => (d, [])
    | None =>
      let loaded := tbl_proveedores db in
      if decide (Exists es_balance loaded) then (loaded, [])
      else (fila_inicial_saldo :: loaded, [Save_dataframe "proveedores"])
    end in
  let df0 := default (tbl_depositos db) (raw_df ss) in
  let notas0 := default (tbl_notas_debito db) (raw_notas ss) in
  let '(st, ev1) :=
    recalculate_accumulated_balances
      (mk_session data0 df0 notas0
         (default false (raw_record_added ss))
         (default false (raw_record_deleted ss))
         (default false (raw_record_edited ss))
         (default false (raw_debit_note_added ss))
         (default false (raw_debit_note_edited ss))) in
  (st, ev0 ++ ev1).

Definition Qc_max (a b : Qc) : Qc := if decide (a ≤ b)%Qc then b else a.

(** [f"{n:02}"] *)
Definition format_02 (n : Z) : string :=
  let s := pretty n in
  if decide (String.length s < 2)%nat then String.append "0" s else s.

Section get_next_n.
(** [pd.to_numeric] on the text of a sequence number: a function of the
    pandas library, taken as given. *)
Variable to_numeric : string → cell.

(** [series.max()] on a non-empty numeric column. *)
Definition column_max (l : list Qc) : Qc :=
  match l with
  | [] => Q2Qc 0
  | x :: l' => foldl Qc_max x l'
  end.

Definition get_next_n (df_rows : list row) : string :=
  match filter (λ r, ¬ es_balance r) df_rows with
  | [] => "01"
  | df_filtered =>
    let n_numeric :=
      (λ r, cell_value (fillna (Q2Qc 0) (to_numeric (N_ r)))) <$> df_filtered in
    let max_n_global := column_max n_numeric in
    format_02 (Qnum (this (py_int max_n_global)) + 1)
  end.

(** [add_supplier_record].  The arguments are numbers (the form supplies
    ints and floats), so the [isinstance] test of the first guard holds. *)
Definition add_supplier_record (save_ok : bool)
    (fecha : date) (proveedor : string)
    (cantidad peso_salida peso_entrada : Qc) (tipo_documento : string)
    (gavetas precio_unitario : Qc) (st : session)
  : bool * session * list event :=
  if negb (forallb (λ val, bool_decide (Q2Qc 0 ≤ val)%Qc)
             [cantidad; peso_salida; peso_entrada; precio_unitario; gavetas])
  then (false, st, [St_error "Los valores numéricos no pueden ser negativos."])
  else if decide (cantidad = Q2Qc 0 ∧ peso_salida = Q2Qc 0 ∧ peso_entrada = Q2Qc 0)
  then (false, st, [St_error "Ingresa una Cantidad y/o Pesos válidos."])
  else if decide (peso_salida < peso_entrada)%Qc
  then (false, st,
        [St_error "El Peso Entrada no puede ser mayor que el Peso Salida."])
  else
    let kilos_restantes := (peso_salida - peso_entrada)%Qc in
    let libras_restantes := (kilos_restantes * LBS_PER_KG)%Qc in
    let promedio :=
      if decide (cantidad = Q2Qc 0) then Q2Qc 0
      else (libras_restantes / cantidad)%Qc in
    let total := (libras_restantes * precio_unitario)%Qc in
    let enumeracion := get_next_n (data st) in
    let nueva_fila :=
      mk_row enumeracion (Some fecha) proveedor (Some PRODUCT_NAME)
        (Num (py_int cantidad)) (Num peso_salida) (Num peso_entrada)
        (Some tipo_documento) (Num (py_int gavetas)) (Num precio_unitario)
        (Num promedio) (Num kilos_restantes) (Num libras_restantes)
        (Num total) (Num (Q2Qc 0)) (Num (Q2Qc 0)) (Num (Q2Qc 0)) in
    let df_balance := filter es_balance (data st) in
    let df_temp := filter (λ r, ¬ es_balance r) (data st) ++ [nueva_fila] in
    let st' := with_data (df_balance ++ df_temp) st in
    if save_ok
    then (true, with_record_added true st',
          [Save_dataframe "proveedores";
           St_success "Registro agregado correctamente. Recalculando saldos..."])
    else (false, st',
          [Save_dataframe "proveedores";
           St_error "Error al guardar el registro."]).
End get_next_n.

(** [delete_record].  An index that is not in the frame raises KeyError,
    which the [except] clause reports. *)
Definition delete_record (save_ok : bool) (index_to_delete : nat) (st : session)
  : session * list event :=
  match data st !! index_to_delete with
  | None =>
    (st, [St_error (String.append "Error al eliminar el registro: "
                                  (pretty index_to_delete))])
  | Some r =>
    if decide (es_balance r)
    then (st, [St_error "No se puede eliminar la fila de BALANCE_INICIAL."])
    else
      let st' := with_data (delete index_to_delete (data st)) st in
      if save_ok
      then (with_record_deleted true st',
            [Save_dataframe "proveedores";
             St_success "Registro eliminado correctamente. Recalculando saldos..."])
      else (st', [Save_dataframe "proveedores";
                  St_error "Error al eliminar el registro."])
  end.

(** One item of the [updated_data] dictionary of [edit_supplier_record],
    with a value its conversion ([pd.to_datetime], [int], [float]) accepts. *)
Inductive update :=
  | Upd_Fecha (value : date)
  | Upd_Cantidad (value : Qc)
  | Upd_Cantidad_de_gavetas (value : Qc)
  | Upd_Peso_Salida (value : Qc)
  | Upd_Peso_Entrada (value : Qc)
  | Upd_Precio_Unitario (value : Qc)
  | Upd_Proveedor (value : string)
  | Upd_Tipo_Documento (value : string)
  | Upd_N (value : string).

Definition apply_update (r : row) (u : update) : row :=
  match u with
  | Upd_Fecha v => set_Fecha (Some v) r
  | Upd_Cantidad v => set_Cantidad (Num (py_int v)) r
  | Upd_Cantidad_de_gavetas v => set_Cantidad_de_gavetas (Num (py_int v)) r
  | Upd_Peso_Salida v => set_Peso_Salida (Num v) r
  | Upd_Peso_Entrada v => set_Peso_Entrada (Num v) r
  | Upd_Precio_Unitario v => set_Precio_Unitario (Num v) r
  | Upd_Proveedor v => set_Proveedor v r
  | Upd_Tipo_Documento v => set_Tipo_Documento (Some v) r
  | Upd_N v => set_N v r
  end.

(** Lines 410-423: the derived columns of the edited row. *)
Definition rederive_row (r : row) : row :=
  let kilos_restantes := cell_op Qcminus (Peso_Salida r) (Peso_Entrada r) in
  let libras_restantes := cell_scale kilos_restantes LBS_PER_KG in
  let promedio := promedio_of libras_restantes (Cantidad r) in
  let total := cell_op Qcmult libras_restantes (Precio_Unitario r) in
  set_Total total
    (set_Promedio promedio
       (set_Libras_Restantes libras_restantes
          (set_Kilos_Restantes kilos_restantes r))).

Definition edit_supplier_record (save_ok : bool) (index_to_edit : nat)
    (updated_data : list update) (st : session) : session * list event :=
  match data st !! index_to_edit with
  | None =>
    (st, [St_error (String.append "Error al editar el registro: "
                                  (pretty index_to_edit))])
  | Some r =>
    if decide (es_balance r)
    then (st, [St_error "No se puede editar la fila de BALANCE_INICIAL."])
    else
      let r' := rederive_row (foldl apply_update r updated_data) in
      let st' := with_data (<[index_to_edit := r']> (data st)) st in
      if save_ok
      then (with_record_edited true st',
            [Save_dataframe "proveedores";
             St_success "Registro editado exitosamente. Recalculando saldos..."])
      else (st', [Save_dataframe "proveedores";
                  St_error "Error al guardar los cambios del registro."])
  end.

(** Lines 572-577 of [add_debit_note]: "Libras calculadas". *)
Definition libras_calculadas (df_data : list row) (fecha_nota : date) : Qc :=
  sum_skipna
    ((λ r, fillna (Q2Qc 0) (Libras_Restantes r))
       <$> filter (λ r, Fecha r = Some fecha_nota ∧ ¬ es_balance r) df_data).

Definition add_debit_note (save_ok : bool) (fecha_nota : date)
    (descuento descuento_real : Qc) (st : session) : session * list event :=
  let libras := libras_calculadas (data st) fecha_nota in
  let descuento_posible := (libras * descuento)%Qc in
  let nueva_nota :=
    Nota.mk (Some fecha_nota) (Num libras) (Num descuento)
      (Num descuento_posible) (Num descuento_real) in
  let st' := with_notas (notas st ++ [nueva_nota]) st in
  if save_ok
  then (with_debit_note_added true st',
        [Save_dataframe "notas_debito";
         St_success "Nota de débito agregada correctamente. Recalculando saldos..."])
  else (st', [Save_dataframe "notas_debito";
              St_error "Error al guardar la nota de débito."]).

(** One item of the [updated_data] dictionary of [edit_debit_note_record]. *)
Inductive nota_update :=
  | NUpd_Fecha (value : date)
  | NUpd_Descuento (value : Qc)
  | NUpd_Descuento_real (value : Qc).

Definition apply_nota_update (n : Nota.t) (u : nota_update) : Nota.t :=
  match u with
  | NUpd_Fecha v =>
    Nota.mk (Some v) (Nota.Libras_calculadas n) (Nota.Descuento n)
      (Nota.Descuento_posible n) (Nota.Descuento_real n)
  | NUpd_Descuento v =>
    Nota.mk (Nota.Fecha n) (Nota.Libras_calculadas n) (Num v)
      (Nota.Descuento_posible n) (Nota.Descuento_real n)
  | NUpd_Descuento_real v =>
    Nota.mk (Nota.Fecha n) (Nota.Libras_calculadas n) (Nota.Descuento n)
      (Nota.Descuento_posible n) (Num v)
  end.

(** Lines 626-631 of [edit_debit_note_record]: the comparison of the "Fecha"
    column with the date cell of the note is false everywhere when that cell
    is NaT. *)
Definition libras_calculadas_recalc (df_data : list row) (f : option date) : Qc :=
  sum_skipna
    ((λ r, fillna (Q2Qc 0) (Libras_Restantes r))
       <$> filter (λ r, is_Some f ∧ Fecha r = f ∧ ¬ es_balance r) df_data).

Definition edit_debit_note_record (save_ok : bool) (index_to_edit : nat)
    (updated_data : list nota_update) (st : session) : session * list event :=
  match notas st !! index_to_edit with
  | None => (st, [St_error "El índice de nota de débito no es válido."])
  | Some n =>
    let n1 := foldl apply_nota_update n updated_data in
    let libras := libras_calculadas_recalc (data st) (Nota.Fecha n1) in
    let n2 :=
      Nota.mk (Nota.Fecha n1) (Num libras) (Nota.Descuento n1)
        (cell_op Qcmult (Num libras) (Nota.Descuento n1))
        (Nota.Descuento_real n1) in
    let st' := with_notas (<[index_to_edit := n2]> (notas st)) st in
    if save_ok
    then (with_debit_note_edited true st',
          [Save_dataframe "notas_debito";
           St_success "Nota de débito editada exitosamente. Recalculando saldos..."])
    else (st', [Save_dataframe "notas_debito";
                St_error "Error al guardar los cambios de la nota de débito."])
  end.

(** *** Deposits and the remaining debit-note operation

    The session record above carries the flags of the operations on
    transaction rows and on added or edited debit notes; the flags of the
    operations below are kept beside it. *)
Record app_state := mk_app {
  ses : session;
  deposit_added : bool;
  deposit_deleted : bool;
  deposit_edited : bool;
  debit_note_deleted : bool
}.

Definition with_df (v : list Dep.t) (st : session) : session :=
  mk_session (data st) v (notas st) (record_added st) (record_deleted st)
    (record_edited st) (debit_note_added st) (debit_note_edited st).

Definition with_ses (v : session) (a : app_state) : app_state :=
  mk_app v (deposit_added a) (deposit_deleted a) (deposit_edited a)
    (debit_note_deleted a).
Definition with_deposit_added (v : bool) (a : app_state) : app_state :=
  mk_app (ses a) v (deposit_deleted a) (deposit_edited a) (debit_note_deleted a).
Definition with_deposit_deleted (v : bool) (a : app_state) : app_state :=
  mk_app (ses a) (deposit_added a) v (deposit_edited a) (debit_note_deleted a).
Definition with_deposit_edited (v : bool) (a : app_state) : app_state :=
  mk_app (ses a) (deposit_added a) (deposit_deleted a) v (debit_note_deleted a).
Definition with_debit_note_deleted (v : bool) (a : app_state) : app_state :=
  mk_app (ses a) (deposit_added a) (deposit_deleted a) (deposit_edited a) v.

(** [needle in haystack] on strings. *)
Fixpoint str_contains (needle haystack : string) : bool :=
  String.prefix needle haystack
  || match haystack with
     | EmptyString => false
     | String _ rest => str_contains needle rest
     end.

(** ["Deposito" if "Cajero" in agencia else "Transferencia"] *)
Definition documento_of (agencia : string) : string :=
  if str_contains "Cajero" agencia then "Deposito" else "Transferencia".

(** The text of the KeyError raised by [DataFrame.drop] for a label that is
    not in the index. *)
Definition not_found_in_axis (index : nat) : string :=
  String.append "'[" (String.append (pretty index) "] not found in axis'").

Section deposit_numbers.
(** [str.isdigit] and [int] on the text of a deposit number: functions of
    Python, taken as given. *)
Variable str_isdigit : string → bool.
Variable int_of_str : string → Z.

(** Lines 260-265 of [add_deposit_record]. *)
Definition next_deposit_number (df_actual : list Dep.t) : string :=
  match df_actual with
  | [] => "01"
  | _ =>
    let valid_n_deposits :=
      int_of_str <$> filter (λ n, str_isdigit n = true) (Dep.N_ <$> df_actual) in
    let max_n_deposit :=
      match valid_n_deposits with
      | [] => 0
      | x :: l => foldl Z.max x l
      end in
    format_02 (max_n_deposit + 1)
  end.

Definition add_deposit_record (save_ok : bool) (fecha_d : date)
    (empresa agencia : string) (monto : Qc) (a : app_state)
  : app_state * list event :=
  let df_actual := df (ses a) in
  let numero := next_deposit_number df_actual in
  let documento := documento_of agencia in
  let nuevo_registro :=
    Dep.mk (Some fecha_d) empresa agencia (Num monto) documento numero in
  let a' := with_ses (with_df (df_actual ++ [nuevo_registro]) (ses a)) a in
  if save_ok
  then (with_deposit_added true a',
        [Save_dataframe "depositos";
         St_success "Depósito agregado exitosamente. Recalculando saldos..."])
  else (a', [Save_dataframe "depositos";
             St_error "Error al guardar el depósito."]).

(** The submit branch of [render_deposit_registration_form]. *)
Definition submit_deposit_form (save_ok : bool) (fecha_d : date)
    (empresa agencia : string) (monto : Qc) (a : app_state)
  : app_state * list event :=
  if decide (monto ≤ Q2Qc 0)%Qc
  then (a, [St_error "El monto del depósito debe ser mayor que cero."])
  else add_deposit_record save_ok fecha_d empresa agencia monto a.
End deposit_numbers.

Definition delete_deposit_record (save_ok : bool) (index_to_delete : nat)
    (a : app_state) : app_state * list event :=
  match df (ses a) !! index_to_delete with
  | None =>
    (a, [St_error (String.append "Error al eliminar el depósito: "
                                 (not_found_in_axis index_to_delete))])
  | Some _ =>
    let a' := with_ses (with_df (delete index_to_delete (df (ses a))) (ses a)) a in
    if save_ok
    then (with_deposit_deleted true a',
          [Save_dataframe "depositos";
           St_success "Depósito eliminado correctamente. Recalculando saldos..."])
    else (a', [Save_dataframe "depositos";
               St_error "Error al eliminar el depósito."])
  end.

(** One item of the [updated_data] dictionary of [edit_deposit_record]. *)
Inductive dep_update :=
  | DUpd_Monto (value : Qc)
  | DUpd_Fecha (value : date)
  | DUpd_Empresa (value : string)
  | DUpd_Agencia (value : string)
  | DUpd_Documento (value : string)
  | DUpd_N (value : string).

Definition apply_dep_update (d : Dep.t) (u : dep_update) : Dep.t :=
  match u with
  | DUpd_Monto v =>
    Dep.mk (Dep.Fecha d) (Dep.Empresa d) (Dep.Agencia d) (Num v)
      (Dep.Documento d) (Dep.N_ d)
  | DUpd_Fecha v =>
    Dep.mk (Some v) (Dep.Empresa d) (Dep.Agencia d) (Dep.Monto d)
      (Dep.Documento d) (Dep.N_ d)
  | DUpd_Empresa v =>
    Dep.mk (Dep.Fecha d) v (Dep.Agencia d) (Dep.Monto d) (Dep.Documento d)
      (Dep.N_ d)
  | DUpd_Agencia v =>
    Dep.mk (Dep.Fecha d) (Dep.Empresa d) v (Dep.Monto d) (Dep.Documento d)
      (Dep.N_ d)
  | DUpd_Documento v =>
    Dep.mk (Dep.Fecha d) (Dep.Empresa d) (Dep.Agencia d) (Dep.Monto d) v
      (Dep.N_ d)
  | DUpd_N v =>
    Dep.mk (Dep.Fecha d) (Dep.Empresa d) (Dep.Agencia d) (Dep.Monto d)
      (Dep.Documento d) v
  end.

(** [updated_data.get("Agencia", default)]: the value the dictionary holds
    for the key, which is the one written last. *)
Definition get_Agencia (updated_data : list dep_update) (default : string)
  : string :=
  foldl (λ acc u, match u with DUpd_Agencia v => v | _ => acc end)
    default updated_data.

Definition edit_deposit_record (save_ok : bool) (index_to_edit : nat)
    (updated_data : list dep_update) (a : app_state) : app_state * list event :=
  match df (ses a) !! index_to_edit with
  | None => (a, [St_error "El índice de depósito no es válido."])
  | Some d =>
    let d1 := foldl apply_dep_update d updated_data in
    let d2 :=
      Dep.mk (Dep.Fecha d1) (Dep.Empresa d1) (Dep.Agencia d1) (Dep.Monto d1)
        (documento_of (get_Agencia updated_data (Dep.Agencia d1)))
        (Dep.N_ d1) in
    let a' :=
      with_ses (with_df (<[index_to_edit := d2]> (df (ses a))) (ses a)) a in
    if save_ok
    then (with_deposit_edited true a',
          [Save_dataframe "depositos";
           St_success "Depósito editado exitosamente. Recalculando saldos..."])
    else (a', [Save_dataframe "depositos";
               St_error "Error al guardar los cambios del depósito."])
  end.

Definition delete_debit_note_record (save_ok : bool) (index_to_delete : nat)
    (a : app_state) : app_state * list event :=
  match notas (ses a) !! index_to_delete with
  | None =>
    (a, [St_error (String.append "Error al eliminar la nota de débito: "
                                 (not_found_in_axis index_to_delete))])
  | Some _ =>
    let a' :=
      with_ses (with_notas (delete index_to_delete (notas (ses a))) (ses a)) a in
    if save_ok
    then (with_debit_note_deleted true a',
          [Save_dataframe "notas_debito";
           St_success "Nota de débito eliminada correctamente. Recalculando saldos..."])
    else (a', [Save_dataframe "notas_debito";
               St_error "Error al eliminar la nota de débito."])
  end.

(** The submit branch of [render_debit_note_form]. *)
Definition submit_debit_note_form (save_ok : bool) (fecha_nota : date)
    (descuento descuento_real : Qc) (st : session) : session * list event :=
  if decide (Q2Qc 0 < descuento_real ∨ Q2Qc 0 < descuento)%Qc
  then add_debit_note save_ok fecha_nota descuento descuento_real st
  else (st, [St_error "Ingresa un Descuento (%) o Descuento Real ($) mayor que cero."]).

(** *** The end of a run of the script

    Lines 1255-1262: when a flag is set, all flags are cleared and the
    table is reconciled; [data_imported] is the flag of the Excel import. *)
Definition any_flag (data_imported : bool) (a : app_state) : bool :=
  deposit_added a || deposit_deleted a || record_added (ses a)
  || record_deleted (ses a) || data_imported || debit_note_added (ses a)
  || debit_note_deleted a || record_edited (ses a) || deposit_edited a
  || debit_note_edited (ses a).

Definition end_of_run (data_imported : bool) (a : app_state)
  : app_state * bool * list event :=
  if any_flag data_imported a then
    let st0 :=
      mk_session (data (ses a)) (df (ses a)) (notas (ses a)) false false false
        false false in
    let '(st1, ev) := recalculate_accumulated_balances st0 in
    (mk_app st1 false false false false, false, ev)
  else (a, data_imported, []).

(** *** The balance series of [render_charts] *)

(** [groupby(...)[col].last()] on one group: the last value that is not
    null, and NaN when there is none. *)
Definition last_valid (l : list cell) : cell :=
  of_lookup
    (last (omap (λ c, match c with Num q => Some q | NaN => None end) l)).

Section render_charts.
(** [df.sort_values("Fecha")] with the default algorithm, which is not
    stable: the order among the rows of one date is not fixed by pandas, and
    the function is taken as given. *)
Variable sort_by_fecha : list row → list row.

(** Lines 1171-1204 of [render_charts]. *)
Definition df_ordenado (data : list row) : list row :=
  let df0 := filter (λ r, ¬ es_balance r) data in
  let df1 := filter (λ r, is_Some (Fecha r)) df0 in
  let df2 := (λ r, set_Total (fillna (Q2Qc 0) (Total r)) r) <$> df1 in
  (λ r, set_Saldo_Acumulado
          (fillna INITIAL_ACCUMULATED_BALANCE (Saldo_Acumulado r)) r)
    <$> sort_by_fecha df2.

(** The series plotted as the evolution of the cumulative balance, [None]
    when the chart is not drawn. *)
Definition daily_last_saldo (data : list row) : option (list (date * cell)) :=
  if decide (filter (λ r, ¬ es_balance r) data = []) then None
  else
    let rows := df_ordenado data in
    if decide (rows = []) then None
    else
      Some ((λ d, (d, last_valid
                        (Saldo_Acumulado
                           <$> filter (λ r, Fecha r = Some d) rows)))
              <$> group_keys date_leb (Fecha <$> rows)).
End render_charts.

(** The relation a debit note keeps between its three computed fields. *)
Definition nota_consistent (n : Nota.t) : Prop :=
  Nota.Descuento_posible n
  = cell_op Qcmult (Nota.Libras_calculadas n) (Nota.Descuento n).

(** ** 8. The quantities the statements are about *)

(** The operational (non-balance) rows of the "data" table. *)
Definition operational (df_data : list row) : list row :=
  filter (λ r, ¬ es_balance r) df_data.

(** The deposit records with the date and counterparty of a row. *)
Definition matching_deposits (df_deposits : list Dep.t)
    (f : option date) (p : string) : list Dep.t :=
  filter (λ d, is_Some f ∧ Dep.Fecha d = f ∧ Dep.Empresa d = p) df_deposits.

Definition deposit_total (df_deposits : list Dep.t)
    (f : option date) (p : string) : Qc :=
  sumQc ((λ d, cell_value (Dep.Monto d)) <$> matching_deposits df_deposits f p).

(** Row derivation from the source fields, unreadable fields counting 0. *)
Definition net_weight (r : row) : Qc :=
  (cell_value (Peso_Salida r) - cell_value (Peso_Entrada r))%Qc.

Definition converted_weight (r : row) : Qc := (net_weight r * LBS_PER_KG)%Qc.

Definition unit_average (r : row) : Qc :=
  if decide (cell_value (Cantidad r) = Q2Qc 0) then Q2Qc 0
  else (converted_weight r / cell_value (Cantidad r))%Qc.

Definition row_total (r : row) : Qc :=
  (converted_weight r * cell_value (Precio_Unitario r))%Qc.

(** The per-row daily net: the day-level deposit sum minus the row total. *)
Definition row_net (df_deposits : list Dep.t) (r : row) : Qc :=
  (deposit_total df_deposits (Fecha r) (Proveedor r) - row_total r)%Qc.

Definition real_discounts (df_notes : list Nota.t) (d : date) : Qc :=
  sumQc ((λ n, cell_value (Nota.Descuento_real n))
           <$> filter (λ n, Nota.Fecha n = Some d) df_notes).

Definition adjusted_daily_net (df_data : list row) (df_deposits : list Dep.t)
    (df_notes : list Nota.t) (d : date) : Qc :=
  (sumQc (row_net df_deposits
            <$> filter (λ r, Fecha r = Some d) (operational df_data))
   + real_discounts df_notes d)%Qc.

(** The distinct dates of the operational rows. *)
Definition operational_dates (df_data : list row) : list date :=
  remove_dups (omap Fecha (operational df_data)).

(** The starting constant plus the adjusted daily nets of all operational
    dates up to the date cell [f]. *)
Definition balance_through (df_data : list row) (df_deposits : list Dep.t)
    (df_notes : list Nota.t) (f : option date) : Qc :=
  (INITIAL_ACCUMULATED_BALANCE
   + sumQc (adjusted_daily_net df_data df_deposits df_notes
              <$> filter (λ d, date_le_cell d f = true) (operational_dates df_data)))%Qc.

(** The source fields of a transaction row. *)
Definition source_fields (r : row) :=
  (N_ r, Fecha r, Proveedor r, Producto r, Cantidad r, Peso_Salida r,
   Peso_Entrada r, Tipo_Documento r, Cantidad_de_gavetas r, Precio_Unitario r).

(** The derived columns of a transaction row. *)
Definition derived_fields (r : row) :=
  (Kilos_Restantes r, Libras_Restantes r, Promedio r, Total r,
   Monto_Deposito r, Saldo_diario r, Saldo_Acumulado r).

(** A row whose numeric and date source fields are readable. *)
Definition well_formed (r : row) : Prop :=
  is_Some (Fecha r) ∧ Cantidad r ≠ NaN ∧ Peso_Salida r ≠ NaN
  ∧ Peso_Entrada r ≠ NaN ∧ Cantidad_de_gavetas r ≠ NaN
  ∧ Precio_Unitario r ≠ NaN.

(** The operational row after line 201, as a function of the stored row
    it comes from: coerced source fields, derived fields, deposit amount and
    per-row daily net. *)
Definition row_201 (df_deposits : list Dep.t) (r : row) : row :=
  mk_row (N_ r) (Fecha r) (Proveedor r) (Producto r)
    (fillna (Q2Qc 0) (Cantidad r)) (fillna (Q2Qc 0) (Peso_Salida r))
    (fillna (Q2Qc 0) (Peso_Entrada r)) (Tipo_Documento r)
    (fillna (Q2Qc 0) (Cantidad_de_gavetas r))
    (fillna (Q2Qc 0) (Precio_Unitario r))
    (Num (unit_average r)) (Num (net_weight r)) (Num (converted_weight r))
    (Num (row_total r))
    (Num (deposit_total df_deposits (Fecha r) (Proveedor r)))
    (Num (row_net df_deposits r))
    (fillna (Q2Qc 0) (Saldo_Acumulado r)).

(** The adjusted daily net written on a row with date cell [f]. *)
Definition broadcast_net (df_data : list row) (df_deposits : list Dep.t)
    (df_notes : list Nota.t) (f : option date) : Qc :=
  match f with
  | Some d => adjusted_daily_net df_data df_deposits df_notes d
  | None => Q2Qc 0
  end.

(** The operational row at the end of the reconciliation. *)
Definition row_final (df_data : list row) (df_deposits : list Dep.t)
    (df_notes : list Nota.t) (r : row) : row :=
  set_Saldo_Acumulado
    (Num (balance_through df_data df_deposits df_notes (Fecha r)))
    (set_Saldo_diario
       (Num (broadcast_net df_data df_deposits df_notes (Fecha r)))
       (row_201 df_deposits r)).

(** The dates of the per-day frame, in the order of [groupby]. *)
Definition daily_dates (df_data : list row) : list date :=
  group_keys date_leb (Fecha <$> operational df_data).

(** *** A small ledger used in the examples

    Two dates; three purchases of "LIRIS SA", two of them on the first date;
    a row whose date is unreadable; two deposits on the first date; one debit
    note on the first date. *)
Definition D1 : date := mk_date 2024 5 1.
Definition D2 : date := mk_date 2024 5 2.

Definition stored_row (n : string) (f : option date) (p : string)
    (cantidad peso_salida peso_entrada precio : Q) : row :=
  mk_row n f p (Some PRODUCT_NAME) (Num (Q2Qc cantidad)) (Num (Q2Qc peso_salida))
    (Num (Q2Qc peso_entrada)) (Some "Factura") (Num (Q2Qc 0))
    (Num (Q2Qc precio)) NaN NaN NaN NaN NaN NaN NaN.

Definition ex_r1 : row := stored_row "01" (Some D1) "LIRIS SA" 50 100 20 1.
Definition ex_r2 : row := stored_row "02" (Some D2) "LIRIS SA" 10 10 0 2.
Definition ex_r3 : row := stored_row "03" (Some D1) "LIRIS SA" 0 50 0 1.
Definition ex_r4 : row := stored_row "04" None "Medina" 1 1 0 1.

Definition ex_data : list row := [fila_inicial_saldo; ex_r2; ex_r4; ex_r3; ex_r1].

Definition ex_deposits : list Dep.t :=
  [Dep.mk (Some D1) "LIRIS SA" "Banco Pichincha" (Num (Q2Qc 50)) "Transferencia" "01";
   Dep.mk (Some D1) "LIRIS SA" "Banco Pichincha" (Num (Q2Qc 30)) "Transferencia" "02"].

Definition ex_notes : list Nota.t :=
  [Nota.mk (Some D1) (Num (Q2Qc 150)) (Num (Q2Qc 0.1)) (Num (Q2Qc 15))
     (Num (Q2Qc 5))].

Definition ex_session : session :=
  mk_session ex_data ex_deposits ex_notes false false false false false.

Global Instance well_formed_dec r : Decision (well_formed r).
Proof. unfold well_formed. apply _. Defined.



(** The example ledger without the row whose date is unreadable. *)
Definition ex_data_wf : list row := [fila_inicial_saldo; ex_r2; ex_r3; ex_r1].

(** *** A ledger whose daily nets are positive

    One purchase on each of two dates, each covered by a larger deposit. *)
Definition ex_data_pos : list row :=
  [fila_inicial_saldo;
   stored_row "01" (Some D1) "LIRIS SA" 10 10 0 1;
   stored_row "02" (Some D2) "LIRIS SA" 10 10 0 1].

Definition ex_deposits_pos : list Dep.t :=
  [Dep.mk (Some D1) "LIRIS SA" "Banco Pichincha" (Num (Q2Qc 50)) "Transferencia" "01";
   Dep.mk (Some D2) "LIRIS SA" "Banco Pichincha" (Num (Q2Qc 30)) "Transferencia" "02"].


(** ** 9. Arithmetic and order facts *)

Lemma sumQc_cons (x : Qc) (l : list Qc) : sumQc (x :: l) = (x + sumQc l)%Qc.
Proof. done. Qed.

Global Instance sumQc_perm : Proper ((≡ₚ) ==> (=)) sumQc.
Proof.
  intros l1 l2 Hp. induction Hp as [|x l1 l2 _ IH|x y l|l1 l2 l3 _ IH1 _ IH2].
  - done.
  - unfold sumQc in *. simpl. by rewrite IH.
  - unfold sumQc. simpl. ring.
  - congruence.
Qed.

Lemma fmap_ext_in {A B} (f g : A → B) (l : list A) :
  (∀ x, x ∈ l → f x = g x) → f <$> l = g <$> l.
Proof.
  intros Hfg. apply list_fmap_ext. intros i x Hx. apply Hfg.
  by eapply list_elem_of_lookup_2.
Qed.

Lemma sumQc_ext {A} (f g : A → Qc) (l : list A) :
  (∀ x, x ∈ l → f x = g x) → sumQc (f <$> l) = sumQc (g <$> l).
Proof. intros Hfg. f_equal. by apply fmap_ext_in. Qed.

Lemma date_ltb_irrefl a : date_ltb a a = false.
Proof. unfold date_ltb. destruct a; simpl. lia. Qed.

Lemma date_ltb_trans a b c :
  date_ltb a b = true → date_ltb b c = true → date_ltb a c = true.
Proof. unfold date_ltb. destruct a, b, c; simpl. lia. Qed.

Lemma date_ltb_asym a b : date_ltb a b = true → date_ltb b a = false.
Proof. unfold date_ltb. destruct a, b; simpl. lia. Qed.

Lemma date_ltb_trichotomy a b :
  date_ltb a b = false → date_ltb b a = false → a = b.
Proof.
  unfold date_ltb. destruct a as [y1 m1 d1], b as [y2 m2 d2]; simpl.
  intros H1 H2. assert (y1 = y2 ∧ m1 = m2 ∧ d1 = d2) as (-> & -> & ->) by lia.
  done.
Qed.

Lemma date_leb_refl a : date_leb a a = true.
Proof. unfold date_leb. by rewrite date_ltb_irrefl. Qed.

Lemma date_leb_total a b : date_leb a b = true ∨ date_leb b a = true.
Proof.
  unfold date_leb. destruct (date_ltb b a) eqn:E; [right|by left].
  by rewrite (date_ltb_asym _ _ E).
Qed.

Lemma date_leb_trans a b c :
  date_leb a b = true → date_leb b c = true → date_leb a c = true.
Proof. unfold date_leb, date_ltb. destruct a, b, c; simpl. lia. Qed.

Lemma date_leb_antisym a b :
  date_leb a b = true → date_leb b a = true → a = b.
Proof.
  unfold date_leb. intros H1 H2.
  apply date_ltb_trichotomy; by apply negb_true_iff.
Qed.

Lemma string_leb_iff (a b : string) :
  String.leb a b = true ↔ String_as_OT.lt a b ∨ a = b.
Proof.
  unfold String.leb. rewrite <- String_as_OT.cmp_lt, <- String_as_OT.cmp_eq.
  unfold String_as_OT.cmp. destruct (String.compare a b); intuition congruence.
Qed.

Lemma string_leb_trans (a b c : string) :
  String.leb a b = true → String.leb b c = true → String.leb a c = true.
Proof.
  rewrite !string_leb_iff. intros [H1| ->] [H2| ->]; eauto.
  left. by eapply String_as_OT.lt_trans.
Qed.

Lemma fecha_ltb_trans a b c :
  fecha_ltb a b = true → fecha_ltb b c = true → fecha_ltb a c = true.
Proof.
  destruct a, b, c; simpl; try done. apply date_ltb_trans.
Qed.

Lemma fecha_ltb_trichotomy a b :
  fecha_ltb a b = true ∨ a = b ∨ fecha_ltb b a = true.
Proof.
  destruct a as [x|], b as [y|]; simpl; auto.
  destruct (date_ltb x y) eqn:E1; auto.
  destruct (date_ltb y x) eqn:E2; auto.
  right; left. f_equal. by apply date_ltb_trichotomy.
Qed.

Lemma row_leb_total r1 r2 : row_leb r1 r2 = true ∨ row_leb r2 r1 = true.
Proof.
  unfold row_leb.
  destruct (fecha_ltb_trichotomy (Fecha r1) (Fecha r2)) as [->|[E| ->]]; auto.
  rewrite E, !bool_decide_eq_true_2 by done.
  destruct (String.leb_total (N_ r1) (N_ r2)) as [-> | ->];
    rewrite ?orb_true_r; auto.
Qed.

Lemma row_leb_trans r1 r2 r3 :
  row_leb r1 r2 = true → row_leb r2 r3 = true → row_leb r1 r3 = true.
Proof.
  unfold row_leb. rewrite !orb_true_iff, !andb_true_iff, !bool_decide_eq_true.
  intros [H1|[E1 S1]] [H2|[E2 S2]].
  - left. by eapply fecha_ltb_trans.
  - left. by rewrite <- E2.
  - left. by rewrite E1.
  - right. split; [congruence|]. by eapply string_leb_trans.
Qed.

(** ** 10. Facts about [sort_values] *)

Section sort_facts.
Context {A : Type} (leb : A → A → bool).
Hypothesis leb_total : ∀ x y, leb x y = true ∨ leb y x = true.
Hypothesis leb_trans :
  ∀ x y z, leb x y = true → leb y z = true → leb x z = true.

Lemma insert_sorted_perm x l : insert_sorted leb x l ≡ₚ x :: l.
Proof.
  induction l as [|y l IH]; simpl; [done|].
  destruct (leb x y); [done|]. rewrite IH. apply Permutation_swap.
Qed.

Lemma sort_values_perm l : sort_values leb l ≡ₚ l.
Proof.
  induction l as [|x l IH]; simpl; [done|].
  by rewrite insert_sorted_perm, IH.
Qed.

Lemma elem_of_sort_values x l : x ∈ sort_values leb l ↔ x ∈ l.
Proof. by rewrite sort_values_perm. Qed.

Lemma insert_sorted_head x l :
  Forall (le_of leb x) l → insert_sorted leb x l = x :: l.
Proof. destruct 1 as [|y l Hy _]; simpl; [done|]. by rewrite Hy. Qed.

Lemma insert_sorted_sorted x l :
  StronglySorted (le_of leb) l → StronglySorted (le_of leb) (insert_sorted leb x l).
Proof.
  induction l as [|y l IH]; simpl; intros Hs.
  - repeat constructor.
  - apply StronglySorted_cons in Hs as [Hy Hl].
    destruct (leb x y) eqn:E.
    + apply StronglySorted_cons. split.
      * constructor; [done|]. eapply Forall_impl; [exact Hy|].
        intros z Hz. by eapply leb_trans.
      * by apply StronglySorted_cons.
    + apply StronglySorted_cons. split; [|by apply IH].
      rewrite insert_sorted_perm. constructor; [|done].
      destruct (leb_total x y); congruence.
Qed.

Lemma sort_values_sorted l : StronglySorted (le_of leb) (sort_values leb l).
Proof.
  induction l as [|x l IH]; simpl; [constructor|].
  by apply insert_sorted_sorted.
Qed.

Lemma sort_values_id l : StronglySorted (le_of leb) l → sort_values leb l = l.
Proof.
  induction l as [|x l IH]; simpl; [done|]. intros Hs.
  apply StronglySorted_cons in Hs as [Hx Hl].
  rewrite IH by done. by apply insert_sorted_head.
Qed.


(** Stability, in the form the engine needs: rows of a class [P] that stood
    in front of the others before sorting stay in front of the rows with
    an equal key. *)
Context (P : A → Prop) `{!∀ x, Decision (P x)}.




End sort_facts.

(** ** 11. Facts about grouping, lookups and running sums *)

Lemma filter_fmap {A B} (f : A → B) (P : B → Prop) `{!∀ x, Decision (P x)}
    (l : list A) :
  filter P (f <$> l) = f <$> filter (λ x, P (f x)) l.
Proof.
  induction l as [|x l IH]; [done|]. rewrite fmap_cons, !filter_cons.
  destruct (decide (P (f x))); by rewrite IH.
Qed.

Lemma filter_empty {A} (P : A → Prop) `{!∀ x, Decision (P x)} (l : list A) :
  (∀ x, x ∈ l → ¬ P x) → filter P l = [].
Proof.
  induction l as [|x l IH]; [done|]. intros Hall. rewrite filter_cons.
  rewrite decide_False by (apply Hall; left). apply IH. intros y Hy.
  apply Hall. by right.
Qed.

Lemma filter_all {A} (P : A → Prop) `{!∀ x, Decision (P x)} (l : list A) :
  (∀ x, x ∈ l → P x) → filter P l = l.
Proof.
  induction l as [|x l IH]; [done|]. intros Hall. rewrite filter_cons.
  rewrite decide_True by (apply Hall; left). f_equal. apply IH. intros y Hy.
  apply Hall. by right.
Qed.

Lemma filter_equiv {A} (P Q : A → Prop) `{!∀ x, Decision (P x)}
    `{!∀ x, Decision (Q x)} (l : list A) :
  (∀ x, x ∈ l → P x ↔ Q x) → filter P l = filter Q l.
Proof.
  induction l as [|x l IH]; [done|]. intros Hall. rewrite !filter_cons.
  assert (P x ↔ Q x) as Hx by (apply Hall; left).
  rewrite IH by (intros y Hy; apply Hall; by right).
  destruct (decide (P x)), (decide (Q x)); tauto.
Qed.

Lemma omap_id_fmap {A B} (f : A → option B) (l : list A) :
  omap id (f <$> l) = omap f l.
Proof.
  induction l as [|x l IH]; [done|]. rewrite fmap_cons. simpl.
  destruct (f x); [f_equal|]; exact IH.
Qed.

Lemma cell_value_fillna c : cell_value (fillna (Q2Qc 0) c) = cell_value c.
Proof. by destruct c. Qed.

Lemma Num_cell_value c : Num (cell_value c) = fillna (Q2Qc 0) c.
Proof. by destruct c. Qed.

Section groupby_facts.
Context {K : Type} `{EqDecision K} (leb : K → K → bool).

Lemma elem_of_group_keys k (ks : list (option K)) :
  k ∈ group_keys leb ks ↔ Some k ∈ ks.
Proof.
  unfold group_keys.
  rewrite elem_of_sort_values, elem_of_remove_dups, list_elem_of_omap.
  split.
  - intros (o & Ho & E). simpl in E. by subst.
  - intros Hk. by exists (Some k).
Qed.

Lemma NoDup_group_keys (ks : list (option K)) : NoDup (group_keys leb ks).
Proof.
  unfold group_keys. rewrite sort_values_perm. apply NoDup_remove_dups.
Qed.

Lemma group_keys_perm (ks : list (option K)) :
  group_keys leb ks ≡ₚ remove_dups (omap id ks).
Proof. apply sort_values_perm. Qed.

Lemma frame_lookup_fmap {V} (f : K → V) (k : K) (l : list K) :
  frame_lookup k ((λ k', (k', f k')) <$> l)
  = if decide (k ∈ l) then Some (f k) else None.
Proof.
  induction l as [|k' l IH].
  - destruct (decide (k ∈ [])) as [H0|]; [by apply elem_of_nil in H0|done].
  - rewrite fmap_cons. cbn [frame_lookup].
    destruct (decide (k' = k)) as [->|Hne].
    + destruct (decide (k ∈ k :: l)) as [|Hn]; [done|].
      exfalso. apply Hn. left.
    + rewrite IH.
      destruct (decide (k ∈ l)) as [Hin|Hin],
               (decide (k ∈ k' :: l)) as [Hin'|Hin']; try done.
      * exfalso. apply Hin'. by right.
      * apply elem_of_cons in Hin' as [?|?]; congruence.
Qed.

Lemma groupby_sum_fst (kv : list (option K * cell)) :
  (groupby_sum leb kv).*1 = group_keys leb (kv.*1).
Proof.
  unfold groupby_sum. rewrite <- list_fmap_compose.
  rewrite <- (list_fmap_id (group_keys leb kv.*1)) at 2.
  by apply list_fmap_ext.
Qed.

(** A key without rows has an empty group, so that filling the missing
    value with 0 gives the sum of the group in both cases. *)
Lemma groupby_sum_lookup (k : K) (kv : list (option K * cell)) :
  fillna (Q2Qc 0) (of_lookup (frame_lookup k (groupby_sum leb kv)))
  = Num (sum_skipna (snd <$> filter (λ p, p.1 = Some k) kv)).
Proof.
  unfold groupby_sum. rewrite frame_lookup_fmap.
  destruct (decide (k ∈ group_keys leb kv.*1)) as [Hin|Hin]; [done|].
  simpl. rewrite filter_empty; [done|].
  intros p Hp E. apply Hin. apply elem_of_group_keys.
  rewrite <- E. by apply list_elem_of_fmap_2.
Qed.
Lemma merge_left_unique {V} (k : option K) (right : list (K * V)) :
  NoDup right.*1 → merge_left k right = [frame_lookup_cell k right].
Proof.
  unfold merge_left. destruct k as [k|]; simpl.
  - induction right as [|[k0 v] right IH]; [done|].
    rewrite fmap_cons, NoDup_cons. simpl. intros [Hk0 Hnd].
    rewrite filter_cons. simpl.
    destruct (decide (k0 = k)) as [->|Hne].
    + rewrite decide_True by done.
      rewrite filter_empty; [done|].
      intros [k1 v1] Hin [= ->]. apply Hk0.
      by apply (list_elem_of_fmap_2 fst) in Hin.
    + rewrite decide_False by congruence. by apply IH.
  - intros _. by rewrite filter_empty.
Qed.
End groupby_facts.

Lemma bind_singleton {A B} (g : A → B) (l : list A) :
  (x ← l; [g x]) = g <$> l.
Proof.
  induction l as [|x l IH]; [done|]. by rewrite bind_cons, fmap_cons, IH.
Qed.

Lemma bind_fmap {A B C} (f : A → B) (g : B → list C) (l : list A) :
  (f <$> l) ≫= g = l ≫= (λ x, g (f x)).
Proof.
  induction l as [|x l IH]; [done|]. by rewrite fmap_cons, !bind_cons, IH.
Qed.

Lemma bind_ext_in {A B} (f g : A → list B) (l : list A) :
  (∀ x, x ∈ l → f x = g x) → l ≫= f = l ≫= g.
Proof.
  induction l as [|x l IH]; [done|]. intros Hfg.
  rewrite !bind_cons, (Hfg x) by left. rewrite IH; [done|].
  intros y Hy. apply Hfg. by right.
Qed.

Lemma to_dict_lookup (f : date → Qc) (l : list date) (d : date) :
  NoDup l →
  to_dict ((λ k, (k, f k)) <$> l) !! d
  = if decide (d ∈ l) then Some (f d) else None.
Proof.
  intros Hnd. unfold to_dict.
  assert (((λ k, (k, f k)) <$> l).*1 = l) as Hfst.
  { rewrite <- list_fmap_compose. rewrite <- (list_fmap_id l) at 2.
    by apply list_fmap_ext. }
  destruct (decide (d ∈ l)) as [Hin|Hin].
  - apply elem_of_list_to_map_1.
    + by rewrite fmap_reverse, Hfst, reverse_Permutation.
    + rewrite elem_of_reverse. by apply (list_elem_of_fmap_2 (λ k, (k, f k))).
  - apply not_elem_of_list_to_map_1.
    by rewrite fmap_reverse, Hfst, elem_of_reverse.
Qed.

(** The running sum along a strictly ascending list of dates is, at each
    date, the sum over the dates up to it. *)
Lemma cumsum_sorted (f : date → Qc) (c acc : Qc) (ks : list date) :
  StronglySorted (le_of date_leb) ks → NoDup ks →
  zip ks ((λ x, (c + x)%Qc) <$> cumsum_from acc (f <$> ks))
  = (λ k, (k, (c + (acc + sumQc (f <$> filter (λ d, date_leb d k = true) ks)))%Qc))
      <$> ks.
Proof.
  intros Hs. revert acc. induction Hs as [|k ks Hs IH Hk]; intros acc Hnd.
  - done.
  - apply NoDup_cons in Hnd as [Hnk Hnd]. simpl.
    rewrite filter_cons, decide_True by apply date_leb_refl.
    rewrite (filter_empty _ ks).
    2:{ intros d Hd Hle. rewrite Forall_forall in Hk.
        apply Hnk. rewrite (date_leb_antisym k d); auto. by apply Hk. }
    f_equal.
    + apply (f_equal (pair k)). unfold sumQc. simpl. ring.
    + rewrite IH by done. apply list_fmap_ext. intros i k' Hk'.
      rewrite filter_cons, decide_True.
      * apply (f_equal (pair k')). rewrite fmap_cons, sumQc_cons. ring.
      * rewrite Forall_forall in Hk. apply Hk.
        by eapply list_elem_of_lookup_2.
Qed.

(** ** 12. The engine, row by row *)

Lemma deposit_lookup (df_deposits : list Dep.t) (f : option date) (p : string) :
  fillna (Q2Qc 0)
    (of_lookup (frame_lookup_cell (dep_key f p) (deposits_summary df_deposits)))
  = Num (deposit_total df_deposits f p).
Proof.
  unfold deposit_total, matching_deposits. destruct f as [d|]; simpl.
  - unfold deposits_summary. rewrite groupby_sum_lookup. f_equal.
    unfold sum_skipna. rewrite filter_fmap, <- !list_fmap_compose.
    rewrite (filter_equiv _ (λ x, is_Some (Some d) ∧ Dep.Fecha x = Some d
                                  ∧ Dep.Empresa x = p)).
    + apply sumQc_ext. intros x _. simpl. apply cell_value_fillna.
    + intros x _. simpl. unfold dep_key. destruct (Dep.Fecha x); simpl.
      * split; [intros [= -> ->]; eauto|intros (_ & [= ->] & ->); done].
      * split; [done|]. by intros (_ & ? & _).
  - rewrite filter_empty; [done|]. intros x _ ([? ?] & _). done.
Qed.

Lemma NoDup_deposits_summary (df_deposits : list Dep.t) :
  NoDup (deposits_summary df_deposits).*1.
Proof.
  unfold deposits_summary. rewrite groupby_sum_fst. apply NoDup_group_keys.
Qed.

Lemma NoDup_notes_by_date (df_notes : list Nota.t) :
  NoDup (notes_by_date df_notes).*1.
Proof.
  unfold notes_by_date. rewrite groupby_sum_fst. apply NoDup_group_keys.
Qed.

Lemma merge_deposits_eq (df_deposits : list Dep.t) (ops : list row) :
  merge_deposits df_deposits ops
  = (λ r, set_Monto_Deposito
            (Num (deposit_total df_deposits (Fecha r) (Proveedor r))) r) <$> ops.
Proof.
  unfold merge_deposits, assign. destruct df_deposits as [|d0 ds]; [done|].
  rewrite <- bind_singleton. apply bind_ext_in. intros r _.
  rewrite merge_left_unique by apply NoDup_deposits_summary.
  simpl. by rewrite deposit_lookup.
Qed.

Lemma derive_rows_eq (ops : list row) :
  derive_rows ops
  = (λ r, set_Total
            (cell_op Qcmult
               (cell_scale (cell_op Qcminus (Peso_Salida r) (Peso_Entrada r))
                  LBS_PER_KG) (Precio_Unitario r))
            (set_Promedio
               (promedio_of
                  (cell_scale (cell_op Qcminus (Peso_Salida r) (Peso_Entrada r))
                     LBS_PER_KG) (Cantidad r))
               (set_Libras_Restantes
                  (cell_scale (cell_op Qcminus (Peso_Salida r) (Peso_Entrada r))
                     LBS_PER_KG)
                  (set_Kilos_Restantes
                     (cell_op Qcminus (Peso_Salida r) (Peso_Entrada r)) r))))
      <$> ops.
Proof.
  unfold derive_rows, assign. destruct ops as [|r0 ops]; [done|].
  by rewrite <- !list_fmap_compose.
Qed.

Lemma promedio_of_coerced (l : Qc) (c : cell) :
  promedio_of (Num l) (fillna (Q2Qc 0) c)
  = Num (if decide (cell_value c = Q2Qc 0) then Q2Qc 0
         else (l / cell_value c)%Qc).
Proof.
  unfold promedio_of. destruct c as [q|]; unfold fillna, cell_value.
  - destruct (decide (Num q = Num (Q2Qc 0))) as [E|E],
             (decide (q = Q2Qc 0)) as [Hq|Hq]; try done.
    + by injection E.
    + by rewrite Hq in E.
  - destruct (decide (Num (Q2Qc 0) = Num (Q2Qc 0))) as [_|E]; [|done].
    by destruct (decide (Q2Qc 0 = Q2Qc 0)).
Qed.

Lemma operaciones_201_eq (df_data : list row) (df_deposits : list Dep.t) :
  operaciones_201 df_data df_deposits
  = row_201 df_deposits <$> operational df_data.
Proof.
  unfold operaciones_201, operational, row_saldo_diario, assign.
  rewrite merge_deposits_eq, derive_rows_eq, <- !list_fmap_compose.
  apply list_fmap_ext. intros i r _. simpl.
  unfold row_201, row_net, row_total, unit_average, converted_weight, net_weight.
  destruct r as [n f p pr ca ps pe td ga pu pm ki li to md sd sa]; simpl.
  unfold set_Saldo_diario, set_Monto_Deposito, set_Total; simpl.
  destruct ps as [ps|], pe as [pe|], pu as [pu|]; simpl;
    rewrite promedio_of_coerced; reflexivity.
Qed.

Lemma notes_lookup (df_notes : list Nota.t) (d : date) :
  fillna (Q2Qc 0) (of_lookup (frame_lookup d (notes_by_date df_notes)))
  = Num (real_discounts df_notes d).
Proof.
  unfold notes_by_date. rewrite groupby_sum_lookup. f_equal.
  unfold sum_skipna, real_discounts.
  rewrite filter_fmap, <- !list_fmap_compose.
  apply sumQc_ext. intros n _. simpl. apply cell_value_fillna.
Qed.

Lemma StronglySorted_fmap_key {A B} (leb : A → A → bool) (g : A → B) (l : list A) :
  StronglySorted (le_of leb) l →
  StronglySorted (le_of (λ a b : A * B, leb a.1 b.1)) ((λ k, (k, g k)) <$> l).
Proof.
  induction 1 as [|x l Hs IH Hx]; [constructor|].
  rewrite fmap_cons. constructor; [done|].
  apply Forall_fmap. eapply Forall_impl; [exact Hx|]. done.
Qed.

Lemma daily_dates_sorted df_data :
  StronglySorted (le_of date_leb) (daily_dates df_data).
Proof.
  apply sort_values_sorted; [apply date_leb_total|apply date_leb_trans].
Qed.

Lemma daily_dates_strict df_data :
  StronglySorted (λ a b, date_ltb a b = true) (daily_dates df_data).
Proof.
  assert (NoDup (daily_dates df_data)) as Hnd by apply NoDup_group_keys.
  induction (daily_dates_sorted df_data) as [|d l _ IH Hd]; [constructor|].
  apply NoDup_cons in Hnd as [Hd' Hnd]. constructor; [by apply IH|].
  rewrite Forall_forall in Hd |- *. intros x Hx.
  destruct (date_ltb d x) eqn:E; [done|]. exfalso. apply Hd'.
  assert (d = x) as ->; [|done].
  apply date_ltb_trichotomy; [done|]. apply negb_true_iff, (Hd x Hx).
Qed.

Lemma daily_dates_perm df_data : daily_dates df_data ≡ₚ operational_dates df_data.
Proof.
  unfold daily_dates, operational_dates.
  by rewrite group_keys_perm, omap_id_fmap.
Qed.

Lemma elem_of_daily_dates df_data d :
  d ∈ daily_dates df_data ↔ ∃ r, r ∈ operational df_data ∧ Fecha r = Some d.
Proof.
  unfold daily_dates. rewrite elem_of_group_keys, list_elem_of_fmap.
  split; intros (r & H1 & H2); exists r; auto.
Qed.

Lemma full_daily_balances_eq df_data df_deposits df_notes :
  full_daily_balances (row_201 df_deposits <$> operational df_data) df_notes
  = (λ k, (k, adjusted_daily_net df_data df_deposits df_notes k))
      <$> daily_dates df_data.
Proof.
  assert (daily_ops_saldo (row_201 df_deposits <$> operational df_data)
          = (λ k, (k, sumQc (row_net df_deposits
                               <$> filter (λ r, Fecha r = Some k)
                                     (operational df_data))))
              <$> daily_dates df_data) as Hd.
  { unfold daily_ops_saldo, groupby_sum, daily_dates.
    rewrite <- !list_fmap_compose. apply list_fmap_ext. intros i k _.
    f_equal. unfold sum_skipna.
    by rewrite filter_fmap, <- !list_fmap_compose. }
  unfold full_daily_balances. rewrite Hd. unfold adjusted_daily_net.
  destruct df_notes as [|n0 ns].
  - rewrite <- list_fmap_compose. apply list_fmap_ext. intros i k _. simpl.
    apply (f_equal (pair k)). change (real_discounts [] k) with (Q2Qc 0).
    by rewrite Qcplus_0_r.
  - rewrite bind_fmap, <- bind_singleton. apply bind_ext_in.
    intros k _. simpl.
    rewrite merge_left_unique by apply NoDup_notes_by_date.
    simpl. by rewrite notes_lookup.
Qed.

Lemma sorted_daily_balances_eq df_data df_deposits df_notes :
  sorted_daily_balances (row_201 df_deposits <$> operational df_data) df_notes
  = (λ k, (k, adjusted_daily_net df_data df_deposits df_notes k))
      <$> daily_dates df_data.
Proof.
  unfold sorted_daily_balances. rewrite full_daily_balances_eq.
  apply sort_values_id. apply StronglySorted_fmap_key, daily_dates_sorted.
Qed.

Lemma fst_fmap_pair {A B} (g : A → B) (l : list A) :
  ((λ k, (k, g k)) <$> l).*1 = l.
Proof.
  rewrite <- list_fmap_compose. rewrite <- (list_fmap_id l) at 2.
  by apply list_fmap_ext.
Qed.

Lemma snd_fmap_pair {A B} (g : A → B) (l : list A) :
  ((λ k, (k, g k)) <$> l).*2 = g <$> l.
Proof. rewrite <- list_fmap_compose. by apply list_fmap_ext. Qed.

(** The sum of the adjusted nets over the dates up to [d] does not depend on
    the order in which the dates are listed. *)
Lemma sum_through_perm df_data (g : date → Qc) (d : date) :
  sumQc (g <$> filter (λ d', date_leb d' d = true) (daily_dates df_data))
  = sumQc (g <$> filter (λ d', date_le_cell d' (Some d) = true)
                   (operational_dates df_data)).
Proof. simpl. by rewrite daily_dates_perm. Qed.

Lemma daily_acumulado_eq df_data df_deposits df_notes :
  daily_acumulado (row_201 df_deposits <$> operational df_data) df_notes
  = (λ k, (k, balance_through df_data df_deposits df_notes (Some k)))
      <$> daily_dates df_data.
Proof.
  unfold daily_acumulado. rewrite sorted_daily_balances_eq.
  rewrite fst_fmap_pair, snd_fmap_pair. unfold cumsum.
  rewrite cumsum_sorted.
  - apply list_fmap_ext. intros i k _. f_equal. unfold balance_through.
    rewrite Qcplus_0_l. f_equal. apply sum_through_perm.
  - apply daily_dates_sorted.
  - apply NoDup_group_keys.
Qed.

Lemma saldo_diario_map_lookup df_data df_deposits df_notes r :
  r ∈ operational df_data →
  fillna (Q2Qc 0)
    (map_dict (saldo_diario_map (row_201 df_deposits <$> operational df_data)
                 df_notes) (Fecha r))
  = Num (broadcast_net df_data df_deposits df_notes (Fecha r)).
Proof.
  intros Hr. unfold map_dict, saldo_diario_map.
  rewrite sorted_daily_balances_eq. destruct (Fecha r) as [d|] eqn:E; [|done].
  simpl. rewrite to_dict_lookup by apply NoDup_group_keys.
  rewrite decide_True; [done|]. apply elem_of_daily_dates. eauto.
Qed.

Lemma balance_through_NaT df_data df_deposits df_notes :
  balance_through df_data df_deposits df_notes None = INITIAL_ACCUMULATED_BALANCE.
Proof.
  unfold balance_through. rewrite filter_empty by done.
  simpl. apply Qcplus_0_r.
Qed.

Lemma saldo_acumulado_map_lookup df_data df_deposits df_notes r :
  r ∈ operational df_data →
  fillna INITIAL_ACCUMULATED_BALANCE
    (map_dict (saldo_acumulado_map (row_201 df_deposits <$> operational df_data)
                 df_notes) (Fecha r))
  = Num (balance_through df_data df_deposits df_notes (Fecha r)).
Proof.
  intros Hr. unfold map_dict, saldo_acumulado_map.
  rewrite daily_acumulado_eq. destruct (Fecha r) as [d|] eqn:E.
  - simpl. rewrite to_dict_lookup by apply NoDup_group_keys.
    rewrite decide_True; [done|]. apply elem_of_daily_dates. eauto.
  - simpl. by rewrite balance_through_NaT.
Qed.

Lemma broadcast_eq df_data df_deposits df_notes :
  broadcast df_notes (row_201 df_deposits <$> operational df_data)
  = row_final df_data df_deposits df_notes <$> operational df_data.
Proof.
  unfold broadcast, assign.
  destruct (row_201 df_deposits <$> operational df_data) as [|r0 l] eqn:E.
  - by apply fmap_nil_inv in E as ->.
  - rewrite <- E, <- !list_fmap_compose. apply fmap_ext_in.
    intros r Hr. simpl. unfold row_final.
    change (Fecha (set_Saldo_diario _ (row_201 df_deposits r))) with (Fecha r).
    change (Fecha (row_201 df_deposits r)) with (Fecha r).
    by rewrite saldo_diario_map_lookup, saldo_acumulado_map_lookup.
Qed.

(** The reconciliation as one sort of the fixed balance rows followed by the
    recomputed operational rows. *)
Lemma recalculate_data_eq df_data df_deposits df_notes :
  recalculate_data df_data df_deposits df_notes
  = sort_values row_leb
      ((fix_initial_balance <$> filter es_balance df_data)
       ++ (row_final df_data df_deposits df_notes <$> operational df_data)).
Proof.
  unfold recalculate_data. rewrite operaciones_201_eq, broadcast_eq.
  by destruct (filter es_balance df_data).
Qed.

(** ** 13. The rows of the reconciled table *)

Lemma recalculate_data_perm df_data df_deposits df_notes :
  recalculate_data df_data df_deposits df_notes
  ≡ₚ (fix_initial_balance <$> filter es_balance df_data)
     ++ (row_final df_data df_deposits df_notes <$> operational df_data).
Proof. rewrite recalculate_data_eq. apply sort_values_perm. Qed.

Lemma elem_of_recalculate_operational df_data df_deposits df_notes r :
  r ∈ recalculate_data df_data df_deposits df_notes → ¬ es_balance r →
  ∃ r0, r0 ∈ operational df_data
        ∧ r = row_final df_data df_deposits df_notes r0.
Proof.
  rewrite recalculate_data_perm, elem_of_app, !list_elem_of_fmap.
  intros [(r0 & -> & Hr0)|(r0 & -> & Hr0)] Hnb.
  - apply list_elem_of_filter in Hr0 as [Hb _]. by destruct Hnb.
  - eauto.
Qed.

Lemma elem_of_recalculate_balance df_data df_deposits df_notes r :
  r ∈ recalculate_data df_data df_deposits df_notes → es_balance r →
  ∃ r0, r0 ∈ df_data ∧ es_balance r0 ∧ r = fix_initial_balance r0.
Proof.
  rewrite recalculate_data_perm, elem_of_app, !list_elem_of_fmap.
  intros [(r0 & -> & Hr0)|(r0 & -> & Hr0)] Hb.
  - apply list_elem_of_filter in Hr0 as [Hb0 Hin]. eauto.
  - apply list_elem_of_filter in Hr0 as [Hnb _]. by destruct Hnb.
Qed.

Lemma operational_recalculate_perm df_data df_deposits df_notes :
  operational (recalculate_data df_data df_deposits df_notes)
  ≡ₚ row_final df_data df_deposits df_notes <$> operational df_data.
Proof.
  unfold operational at 1. rewrite recalculate_data_perm, filter_app.
  rewrite filter_empty, filter_all; [done| |].
  - intros r (r0 & -> & Hr0)%list_elem_of_fmap.
    by apply list_elem_of_filter in Hr0 as [Hnb _].
  - intros r (r0 & -> & Hr0)%list_elem_of_fmap Hnb.
    by apply list_elem_of_filter in Hr0 as [Hb _].
Qed.

Lemma balance_recalculate_perm df_data df_deposits df_notes :
  filter es_balance (recalculate_data df_data df_deposits df_notes)
  ≡ₚ fix_initial_balance <$> filter es_balance df_data.
Proof.
  rewrite recalculate_data_perm, filter_app.
  rewrite filter_all, (filter_empty _ (_ <$> operational _)).
  - by rewrite app_nil_r.
  - intros r (r0 & -> & Hr0)%list_elem_of_fmap Hb.
    by apply list_elem_of_filter in Hr0 as [Hnb _].
  - intros r (r0 & -> & Hr0)%list_elem_of_fmap.
    by apply list_elem_of_filter in Hr0 as [Hb _].
Qed.

Lemma filter_le_minimum (d : date) (l : list date) :
  NoDup l → d ∈ l → (∀ d', d' ∈ l → date_leb d d' = true) →
  filter (λ d', date_le_cell d' (Some d) = true) l = [d].
Proof.
  intros Hnd Hd Hmin.
  rewrite (filter_equiv _ (λ d', d' = d)).
  - clear Hmin. induction Hnd as [|x l Hx Hnd IH]; [by apply elem_of_nil in Hd|].
    rewrite filter_cons. destruct (decide (x = d)) as [->|Hne].
    + f_equal. apply filter_empty. intros y Hy ->. done.
    + apply IH. apply elem_of_cons in Hd as [?|?]; congruence.
  - intros d' Hd'. simpl. split.
    + intros Hle. apply date_leb_antisym; auto.
    + intros ->. apply date_leb_refl.
Qed.

(** ** 14. The statements *)

(** C1. After a run of the reconciliation the cumulative balance of every
    operational row is the starting constant plus the sum of the adjusted
    daily nets of all distinct operational dates up to the date of the row;
    the running sum is taken over the dates in strictly ascending order;
    hence rows of one date carry one cumulative balance, and at the earliest
    operational date it is the constant plus the adjusted net of that date. *)
Theorem cumulative_balance_is_prefix_sum
    (df_data : list row) (df_deposits : list Dep.t) (df_notes : list Nota.t) :
  let out := recalculate_data df_data df_deposits df_notes in
  (∀ r, r ∈ out → ¬ es_balance r →
        Saldo_Acumulado r
        = Num (balance_through df_data df_deposits df_notes (Fecha r)))
  ∧ StronglySorted (λ a b, date_ltb a b = true)
      (daily_acumulado (operaciones_201 df_data df_deposits) df_notes).*1
  ∧ daily_acumulado (operaciones_201 df_data df_deposits) df_notes
    = (λ d, (d, balance_through df_data df_deposits df_notes (Some d)))
        <$> daily_dates df_data
  ∧ (∀ r1 r2, r1 ∈ out → r2 ∈ out → ¬ es_balance r1 → ¬ es_balance r2 →
              Fecha r1 = Fecha r2 → Saldo_Acumulado r1 = Saldo_Acumulado r2)
  ∧ (∀ r d, r ∈ out → ¬ es_balance r → Fecha r = Some d →
            (∀ d', d' ∈ operational_dates df_data → date_leb d d' = true) →
            Saldo_Acumulado r
            = Num (INITIAL_ACCUMULATED_BALANCE
                   + adjusted_daily_net df_data df_deposits df_notes d)%Qc).
Proof.
  intros out.
  assert (∀ r, r ∈ out → ¬ es_balance r →
               Saldo_Acumulado r
               = Num (balance_through df_data df_deposits df_notes (Fecha r)))
    as Hacc.
  { intros r Hr Hnb.
    by destruct (elem_of_recalculate_operational _ _ _ _ Hr Hnb) as (r0 & _ & ->). }
  split; [exact Hacc|]. rewrite operaciones_201_eq, daily_acumulado_eq.
  split; [|split; [done|split]].
  - rewrite fst_fmap_pair. apply daily_dates_strict.
  - intros r1 r2 H1 H2 Hb1 Hb2 E. rewrite !Hacc by done. by rewrite E.
  - intros r d Hr Hnb E Hmin. rewrite Hacc by done. rewrite E.
    unfold balance_through. rewrite filter_le_minimum; [|apply NoDup_remove_dups| |done].
    + do 2 f_equal. rewrite list_fmap_singleton. unfold sumQc. simpl. apply Qcplus_0_r.
    + destruct (elem_of_recalculate_operational _ _ _ _ Hr Hnb) as (r0 & Hr0 & ->).
      unfold operational_dates. rewrite elem_of_remove_dups, list_elem_of_omap.
      exists r0. split; [done|]. exact E.
Qed.

Lemma cumulative_balance_is_prefix_sum_witness :
  let out := recalculate_data ex_data ex_deposits ex_notes in
  let r := row_final ex_data ex_deposits ex_notes ex_r1 in
  r ∈ out ∧ ¬ es_balance r ∧ Fecha r = Some D1
  ∧ Saldo_Acumulado r
    = Num (INITIAL_ACCUMULATED_BALANCE
           + adjusted_daily_net ex_data ex_deposits ex_notes D1)%Qc.
Proof.
  intros out r.
  assert (r ∈ out) as Hin
    by (apply (bool_decide_unpack _); vm_compute; reflexivity).
  assert (¬ es_balance r) as Hnb
    by (apply (bool_decide_unpack _); vm_compute; reflexivity).
  split; [exact Hin|]. split; [exact Hnb|]. split; [reflexivity|].
  destruct (cumulative_balance_is_prefix_sum ex_data ex_deposits ex_notes)
    as (_ & _ & _ & _ & Hmin).
  apply (Hmin r D1 Hin Hnb); [reflexivity|].
  intros d' Hd'. change (operational_dates ex_data) with [D2; D1] in Hd'.
  apply elem_of_cons in Hd' as [->|Hd']; [reflexivity|].
  apply list_elem_of_singleton in Hd' as ->. reflexivity.
Defined.

(** C2. Every operational row gets as deposit amount the sum of the deposit
    records with exactly its date and counterparty (zero when none matches or
    when there are no deposits at all); its per-row daily net is that
    day-level sum minus its own total, so that rows sharing date and
    counterparty each count the whole sum; and the adjusted daily net of a
    date is the sum of the per-row nets of the date plus the declared real
    discounts of the debit notes of the date. *)
Theorem daily_net_per_row_and_per_date
    (df_data : list row) (df_deposits : list Dep.t) (df_notes : list Nota.t) :
  let ops := operaciones_201 df_data df_deposits in
  (∀ r, r ∈ ops →
        Monto_Deposito r
        = Num (deposit_total df_deposits (Fecha r) (Proveedor r))
        ∧ Saldo_diario r
          = Num (deposit_total df_deposits (Fecha r) (Proveedor r)
                 - cell_value (Total r))%Qc)
  ∧ (∀ f p, matching_deposits df_deposits f p = [] →
            deposit_total df_deposits f p = Q2Qc 0)
  ∧ (∀ r, r ∈ operaciones_201 df_data [] → Monto_Deposito r = Num (Q2Qc 0))
  ∧ (∀ r1 r2, r1 ∈ ops → r2 ∈ ops → Fecha r1 = Fecha r2 →
              Proveedor r1 = Proveedor r2 →
              Monto_Deposito r1 = Monto_Deposito r2)
  ∧ (∀ r d, r ∈ ops → Fecha r = Some d →
            d ∈ (full_daily_balances ops df_notes).*1)
  ∧ (∀ d v, (d, v) ∈ full_daily_balances ops df_notes →
            v = (sumQc ((λ r, cell_value (Saldo_diario r))
                          <$> filter (λ r, Fecha r = Some d) ops)
                 + real_discounts df_notes d)%Qc)
  ∧ (∀ r, r ∈ recalculate_data df_data df_deposits df_notes → ¬ es_balance r →
          Monto_Deposito r
          = Num (deposit_total df_deposits (Fecha r) (Proveedor r))).
Proof.
  intros ops. unfold ops. rewrite !operaciones_201_eq, full_daily_balances_eq.
  assert (∀ r, r ∈ row_201 df_deposits <$> operational df_data →
               Monto_Deposito r
               = Num (deposit_total df_deposits (Fecha r) (Proveedor r))
               ∧ Saldo_diario r
                 = Num (deposit_total df_deposits (Fecha r) (Proveedor r)
                        - cell_value (Total r))%Qc) as Hrow.
  { by intros r (r0 & -> & _)%list_elem_of_fmap. }
  split; [exact Hrow|]. split; [|split; [|split; [|split; [|split]]]].
  - intros f p E. unfold deposit_total. by rewrite E.
  - by intros r (r0 & -> & _)%list_elem_of_fmap.
  - intros r1 r2 H1 H2 Ef Ep.
    rewrite (proj1 (Hrow r1 H1)), (proj1 (Hrow r2 H2)). by rewrite Ef, Ep.
  - intros r d (r0 & -> & Hr0)%list_elem_of_fmap E. rewrite fst_fmap_pair.
    apply elem_of_daily_dates. eauto.
  - intros d v (k & [= -> ->] & _)%list_elem_of_fmap.
    unfold adjusted_daily_net. f_equal.
    by rewrite filter_fmap, <- list_fmap_compose.
  - intros r Hr Hnb.
    by destruct (elem_of_recalculate_operational _ _ _ _ Hr Hnb) as (r0 & _ & ->).
Qed.

Lemma daily_net_per_row_and_per_date_witness :
  let ops := operaciones_201 ex_data ex_deposits in
  let r := row_201 ex_deposits ex_r3 in
  r ∈ ops
  ∧ Monto_Deposito r = Num (Q2Qc 80)
  ∧ Saldo_diario r = Num (Q2Qc 80 - cell_value (Total r))%Qc
  ∧ Monto_Deposito (row_201 ex_deposits ex_r1) = Num (Q2Qc 80).
Proof.
  intros ops r.
  assert (r ∈ ops) as Hin
    by (apply (bool_decide_unpack _); vm_compute; reflexivity).
  assert (row_201 ex_deposits ex_r1 ∈ ops) as Hin1
    by (apply (bool_decide_unpack _); vm_compute; reflexivity).
  assert (deposit_total ex_deposits (Fecha r) (Proveedor r) = Q2Qc 80) as E
    by (apply (bool_decide_unpack _); vm_compute; reflexivity).
  destruct (daily_net_per_row_and_per_date ex_data ex_deposits ex_notes)
    as (Hrow & _ & _ & Hsame & _).
  destruct (Hrow r Hin) as [Hm Hs]. rewrite E in Hm, Hs.
  split; [exact Hin|]. split; [exact Hm|]. split; [exact Hs|].
  rewrite (Hsame _ r Hin1 Hin); [exact Hm|reflexivity..].
Defined.

(** C3. Row derivation.  Both the creation of a row by [add_supplier_record]
    and every run of the reconciliation give, for outbound weight [wo],
    inbound weight [wi], unit count [n] and unit price [p]: net weight
    [wo - wi], converted weight [net * 2.20462], average [converted / n], or
    0 when [n] is 0, and total [converted * p].  For wo = 100, wi = 20,
    n = 50, p = 1 this is 80, 176.3696 (176.37 to the cent), 3.527392 (3.527
    to three decimals) and 176.3696. *)
Theorem row_derivation (to_numeric : string → cell) :
  (∀ save_ok fecha proveedor n wo wi tipo gavetas p st st' ev,
     add_supplier_record to_numeric save_ok fecha proveedor n wo wi tipo
       gavetas p st = (true, st', ev) →
     ∃ fila,
       data st' = filter es_balance (data st) ++ operational (data st) ++ [fila]
       ∧ Kilos_Restantes fila = Num (wo - wi)%Qc
       ∧ Libras_Restantes fila = Num ((wo - wi) * LBS_PER_KG)%Qc
       ∧ Promedio fila
         = Num (if decide (n = Q2Qc 0) then Q2Qc 0
                else ((wo - wi) * LBS_PER_KG / n)%Qc)
       ∧ Total fila = Num ((wo - wi) * LBS_PER_KG * p)%Qc)
  ∧ (∀ df_data df_deposits df_notes r,
       r ∈ recalculate_data df_data df_deposits df_notes → ¬ es_balance r →
       ∃ wo wi n p,
         Peso_Salida r = Num wo ∧ Peso_Entrada r = Num wi
         ∧ Cantidad r = Num n ∧ Precio_Unitario r = Num p
         ∧ Kilos_Restantes r = Num (wo - wi)%Qc
         ∧ Libras_Restantes r = Num ((wo - wi) * LBS_PER_KG)%Qc
         ∧ Promedio r
           = Num (if decide (n = Q2Qc 0) then Q2Qc 0
                  else ((wo - wi) * LBS_PER_KG / n)%Qc)
         ∧ Total r = Num ((wo - wi) * LBS_PER_KG * p)%Qc)
  ∧ LBS_PER_KG = Q2Qc 2.20462
  ∧ (λ r, (Kilos_Restantes r, Libras_Restantes r, Promedio r, Total r))
      <$> recalculate_data [stored_row "01" (Some D1) "LIRIS SA" 50 100 20 1] [] []
    = [(Num (Q2Qc 80), Num (Q2Qc 176.3696), Num (Q2Qc 3.527392),
        Num (Q2Qc 176.3696))]
  ∧ (λ r, (Kilos_Restantes r, Libras_Restantes r, Promedio r, Total r))
      <$> data (add_supplier_record to_numeric true D1 "LIRIS SA" (Q2Qc 50)
                  (Q2Qc 100) (Q2Qc 20) "Factura" (Q2Qc 0) (Q2Qc 1)
                  (mk_session [] [] [] false false false false false)).1.2
    = [(Num (Q2Qc 80), Num (Q2Qc 176.3696), Num (Q2Qc 3.527392),
        Num (Q2Qc 176.3696))]
  ∧ (Q2Qc 176.365 ≤ Q2Qc 176.3696 < Q2Qc 176.375)%Qc
  ∧ (Q2Qc 3.5265 ≤ Q2Qc 3.527392 < Q2Qc 3.5275)%Qc.
Proof.
  split; [|split; [|split; [|split; [|split; [|split]]]]].
  - intros save_ok fecha proveedor n wo wi tipo gavetas p st st' ev.
    unfold add_supplier_record.
    destruct (negb _); [by intros [=]|].
    destruct (decide (n = Q2Qc 0 ∧ _)); [by intros [=]|].
    destruct (decide (wo < wi)%Qc); [by intros [=]|].
    destruct save_ok; [|by intros [=]]. intros [= <- _]. simpl.
    eexists. split; [reflexivity|]. simpl. done.
  - intros df_data df_deposits df_notes r Hr Hnb.
    destruct (elem_of_recalculate_operational _ _ _ _ Hr Hnb) as (r0 & _ & ->).
    exists (cell_value (Peso_Salida r0)), (cell_value (Peso_Entrada r0)),
      (cell_value (Cantidad r0)), (cell_value (Precio_Unitario r0)).
    simpl. rewrite <- !Num_cell_value. done.
  - done.
  - apply (bool_decide_unpack _). vm_compute. reflexivity.
  - apply (bool_decide_unpack _). vm_compute. reflexivity.
  - split; [by vm_compute|reflexivity].
  - split; [by vm_compute|reflexivity].
Qed.

Lemma row_derivation_witness :
  let r := row_final ex_data ex_deposits ex_notes ex_r1 in
  r ∈ recalculate_data ex_data ex_deposits ex_notes ∧ ¬ es_balance r
  ∧ ∃ wo wi n p,
      Peso_Salida r = Num wo ∧ Peso_Entrada r = Num wi
      ∧ Cantidad r = Num n ∧ Precio_Unitario r = Num p
      ∧ Kilos_Restantes r = Num (wo - wi)%Qc
      ∧ Libras_Restantes r = Num ((wo - wi) * LBS_PER_KG)%Qc
      ∧ Promedio r
        = Num (if decide (n = Q2Qc 0) then Q2Qc 0
               else ((wo - wi) * LBS_PER_KG / n)%Qc)
      ∧ Total r = Num ((wo - wi) * LBS_PER_KG * p)%Qc.
Proof.
  intros r.
  assert (r ∈ recalculate_data ex_data ex_deposits ex_notes) as Hin
    by (apply (bool_decide_unpack _); vm_compute; reflexivity).
  assert (¬ es_balance r) as Hnb
    by (apply (bool_decide_unpack _); vm_compute; reflexivity).
  split; [exact Hin|]. split; [exact Hnb|].
  destruct (row_derivation (λ _, NaN)) as (_ & Hrec & _).
  exact (Hrec ex_data ex_deposits ex_notes r Hin Hnb).
Defined.

(** C5. After every run of the reconciliation a balance row has cumulative
    balance 176.01, daily net, deposit amount and total 0, date 1900-01-01
    and sequence id "00", whatever the operational rows are; a dataset with
    a balance row keeps it; and the first initialization creates the balance
    row when the loaded table has none. *)
Theorem balance_row_is_fixed :
  (∀ df_data df_deposits df_notes r,
     r ∈ recalculate_data df_data df_deposits df_notes → es_balance r →
     Saldo_Acumulado r = Num INITIAL_ACCUMULATED_BALANCE
     ∧ Saldo_diario r = Num (Q2Qc 0)
     ∧ Monto_Deposito r = Num (Q2Qc 0)
     ∧ Total r = Num (Q2Qc 0)
     ∧ Fecha r = Some (mk_date 1900 1 1)
     ∧ N_ r = "00")
  ∧ INITIAL_ACCUMULATED_BALANCE = Q2Qc 176.01
  ∧ (∀ df_data df_deposits df_notes,
       length (filter es_balance
                 (recalculate_data df_data df_deposits df_notes))
       = length (filter es_balance df_data))
  ∧ (∀ df_deposits df_notes,
       recalculate_data [fila_inicial_saldo] df_deposits df_notes
       = [fila_inicial_saldo])
  ∧ (∀ db ss, raw_data ss = None →
       Exists es_balance (data (initialize_session_state db ss).1))
  ∧ (∀ db ss, raw_data ss = None → ¬ Exists es_balance (tbl_proveedores db) →
       fila_inicial_saldo ∈ data (initialize_session_state db ss).1).
Proof.
  split; [|split; [done|split; [|split; [|split]]]].
  - intros df_data df_deposits df_notes r Hr Hb.
    by destruct (elem_of_recalculate_balance _ _ _ _ Hr Hb) as (r0 & _ & _ & ->).
  - intros. by rewrite balance_recalculate_perm, length_fmap.
  - intros. by rewrite recalculate_data_eq.
  - intros db ss Hraw. unfold initialize_session_state. rewrite Hraw.
    destruct (decide (Exists es_balance (tbl_proveedores db))) as [Hex|Hex];
      simpl.
    + apply Exists_exists in Hex as (r0 & Hr0 & Hb0). apply Exists_exists.
      exists (fix_initial_balance r0). split; [|done].
      rewrite recalculate_data_perm, elem_of_app. left.
      apply list_elem_of_fmap_2. by apply list_elem_of_filter.
    + apply Exists_exists. exists (fix_initial_balance fila_inicial_saldo).
      split; [|done]. rewrite recalculate_data_perm, elem_of_app. left.
      apply list_elem_of_fmap_2. apply list_elem_of_filter. split; [done|left].
  - intros db ss Hraw Hex. unfold initialize_session_state. rewrite Hraw.
    rewrite decide_False by done. simpl.
    rewrite recalculate_data_perm, elem_of_app. left.
    change fila_inicial_saldo with (fix_initial_balance fila_inicial_saldo) at 1.
    apply list_elem_of_fmap_2. apply list_elem_of_filter. split; [done|left].
Qed.

Lemma balance_row_is_fixed_witness :
  fila_inicial_saldo ∈ recalculate_data ex_data ex_deposits ex_notes
  ∧ Saldo_Acumulado fila_inicial_saldo = Num (Q2Qc 176.01)
  ∧ fila_inicial_saldo
    ∈ data (initialize_session_state (mk_database [ex_r1] [] [])
              (mk_raw_session None None None None None None None None)).1.
Proof.
  assert (fila_inicial_saldo ∈ recalculate_data ex_data ex_deposits ex_notes)
    as Hin by (apply (bool_decide_unpack _); vm_compute; reflexivity).
  destruct balance_row_is_fixed as (Hfix & _ & _ & _ & _ & Hinit).
  split; [exact Hin|]. split.
  - exact (proj1 (Hfix ex_data ex_deposits ex_notes fila_inicial_saldo Hin
                    eq_refl)).
  - apply Hinit; [reflexivity|].
    intros Hex. apply Exists_exists in Hex as (r & Hr & Hb).
    apply list_elem_of_singleton in Hr as ->. discriminate Hb.
Defined.

(** C6. Deleting the balance row with [delete_record], or editing it with
    [edit_supplier_record], reports an error and returns with the session
    as it was; no save is attempted. *)
Theorem balance_row_is_protected
    (save_ok : bool) (index : nat) (updated_data : list update)
    (st : session) (r : row) :
  data st !! index = Some r → es_balance r →
  delete_record save_ok index st
  = (st, [St_error "No se puede eliminar la fila de BALANCE_INICIAL."])
  ∧ edit_supplier_record save_ok index updated_data st
    = (st, [St_error "No se puede editar la fila de BALANCE_INICIAL."]).
Proof.
  intros Hi Hb. unfold delete_record, edit_supplier_record. rewrite Hi.
  by rewrite !decide_True.
Qed.

Lemma balance_row_is_protected_witness :
  delete_record true 0 ex_session
  = (ex_session, [St_error "No se puede eliminar la fila de BALANCE_INICIAL."])
  ∧ edit_supplier_record true 0 [Upd_Peso_Salida (Q2Qc 7)] ex_session
    = (ex_session, [St_error "No se puede editar la fila de BALANCE_INICIAL."]).
Proof.
  apply (balance_row_is_protected true 0%nat [Upd_Peso_Salida (Q2Qc 7)]
           ex_session fila_inicial_saldo); reflexivity.
Defined.

(** C7. [add_supplier_record] rejects every input with a negative unit
    count, weight, price or container count, or with an inbound weight above
    the outbound weight: it returns False with one error message and the
    session as it was, and attempts no save. *)
Theorem add_rejects_invalid_input
    (to_numeric : string → cell) (save_ok : bool) (fecha : date)
    (proveedor : string) (cantidad peso_salida peso_entrada : Qc)
    (tipo_documento : string) (gavetas precio_unitario : Qc) (st : session) :
  (cantidad < Q2Qc 0 ∨ peso_salida < Q2Qc 0 ∨ peso_entrada < Q2Qc 0
   ∨ precio_unitario < Q2Qc 0 ∨ gavetas < Q2Qc 0
   ∨ peso_salida < peso_entrada)%Qc →
  ∃ msg,
    add_supplier_record to_numeric save_ok fecha proveedor cantidad peso_salida
      peso_entrada tipo_documento gavetas precio_unitario st
    = (false, st, [St_error msg]).
Proof.
  intros Hbad. unfold add_supplier_record.
  destruct (negb _) eqn:Hneg; [by eexists|].
  destruct (decide (cantidad = Q2Qc 0 ∧ _)); [by eexists|].
  destruct (decide (peso_salida < peso_entrada)%Qc) as [|Hle]; [by eexists|].
  exfalso. apply negb_false_iff in Hneg. simpl in Hneg.
  rewrite !andb_true_iff, !bool_decide_eq_true in Hneg.
  destruct Hneg as (H1 & H2 & H3 & H4 & H5 & _).
  destruct Hbad as [Hb|[Hb|[Hb|[Hb|[Hb|Hb]]]]];
    try (by eapply Qclt_not_le; [exact Hb|]); by apply Hle.
Qed.

Lemma add_rejects_invalid_input_witness :
  ∃ msg,
    add_supplier_record (λ _, NaN) true D1 "LIRIS SA" (Q2Qc 50) (Q2Qc 20)
      (Q2Qc 100) "Factura" (Q2Qc 0) (Q2Qc 1) ex_session
    = (false, ex_session, [St_error msg]).
Proof.
  apply add_rejects_invalid_input. do 5 right. reflexivity.
Defined.

(** *** A second run *)










(** *** Debit notes *)





(** C10. When the operational rows have readable dates and numbers, a run of
    the reconciliation keeps their number and their source fields: up to the
    order of the rows, only the derived columns change. *)
Theorem reconciliation_preserves_source_fields
    (df_data : list row) (df_deposits : list Dep.t) (df_notes : list Nota.t) :
  Forall well_formed (operational df_data) →
  let out := recalculate_data df_data df_deposits df_notes in
  length (operational out) = length (operational df_data)
  ∧ source_fields <$> operational out ≡ₚ source_fields <$> operational df_data
  ∧ (∀ r, r ∈ operational out →
          ∃ r0, r0 ∈ operational df_data ∧ source_fields r = source_fields r0).
Proof.
  intros Hwf out.
  assert (∀ r, r ∈ operational df_data →
               source_fields (row_final df_data df_deposits df_notes r)
               = source_fields r) as Hsrc.
  { intros r Hr. rewrite Forall_forall in Hwf.
    destruct (Hwf r Hr) as (_ & H1 & H2 & H3 & H4 & H5).
    unfold source_fields. simpl.
    destruct (Cantidad r), (Peso_Salida r), (Peso_Entrada r),
      (Cantidad_de_gavetas r), (Precio_Unitario r); done. }
  assert (source_fields <$> operational out
          ≡ₚ source_fields <$> operational df_data) as Hperm.
  { unfold out. rewrite operational_recalculate_perm, <- list_fmap_compose.
    assert ((source_fields ∘ row_final df_data df_deposits df_notes)
              <$> operational df_data
            = source_fields <$> operational df_data) as ->; [|done].
    apply fmap_ext_in. intros r Hr. by apply Hsrc. }
  split; [|split; [exact Hperm|]].
  - unfold out. by rewrite operational_recalculate_perm, length_fmap.
  - intros r Hr. unfold out in Hr. rewrite operational_recalculate_perm in Hr.
    apply list_elem_of_fmap in Hr as (r0 & -> & Hr0). eauto.
Qed.

Lemma reconciliation_preserves_source_fields_witness :
  Forall well_formed (operational ex_data_wf)
  ∧ length (operational (recalculate_data ex_data_wf ex_deposits ex_notes))
    = 3%nat.
Proof.
  assert (Forall well_formed (operational ex_data_wf)) as Hwf
    by (apply (bool_decide_unpack _); vm_compute; reflexivity).
  split; [exact Hwf|].
  exact (proj1 (reconciliation_preserves_source_fields ex_data_wf ex_deposits
                  ex_notes Hwf)).
Defined.

(** C8.  The edit operation stores a negative net weight: a row created with
    outbound weight 100 and inbound weight 20, then edited to inbound weight
    150, has net weight -50, and the reconciliation keeps it. *)
Theorem edit_stores_negative_net_weight :
  let st0 :=
    (add_supplier_record (λ _, NaN) true D1 "LIRIS SA" (Q2Qc 50) (Q2Qc 100)
       (Q2Qc 20) "Factura" (Q2Qc 0) (Q2Qc 1)
       (mk_session [fila_inicial_saldo] [] [] false false false false false)).1.2 in
  let st1 := (recalculate_accumulated_balances st0).1 in
  let st2 := (edit_supplier_record true 1 [Upd_Peso_Entrada (Q2Qc 150)] st1).1 in
  let st3 := (recalculate_accumulated_balances st2).1 in
  Kilos_Restantes <$> data st1 = [NaN; Num (Q2Qc 80)]
  ∧ Kilos_Restantes <$> data st2 = [NaN; Num (Q2Qc (-50))]
  ∧ Kilos_Restantes <$> data st3 = [NaN; Num (Q2Qc (-50))]
  ∧ (Q2Qc (-50) < Q2Qc 0)%Qc.
Proof.
  repeat split; try (apply (bool_decide_unpack _); vm_compute; reflexivity).
Qed.

(** ** 15. Further properties of the reconciliation *)

Lemma length_filter_complement {A} (P : A → Prop) `{!∀ x, Decision (P x)}
    (l : list A) :
  (length (filter P l) + length (filter (λ x, ¬ P x) l))%nat = length l.
Proof. by rewrite <- length_app, filter_app_complement. Qed.

(** X1. The reconciled table is ordered by date, rows without a readable
    date last, and by sequence id within a date: a row never follows a row
    that is strictly greater in that order. *)
Theorem reconciled_table_is_sorted
    (df_data : list row) (df_deposits : list Dep.t) (df_notes : list Nota.t) :
  StronglySorted (λ r1 r2, row_leb r1 r2 = true)
    (recalculate_data df_data df_deposits df_notes).
Proof.
  rewrite recalculate_data_eq.
  apply (sort_values_sorted row_leb row_leb_total row_leb_trans).
Qed.

(** X2. A run of the reconciliation neither loses nor duplicates a row: the
    table keeps its length, its number of balance rows and its number of
    operational rows. *)
Theorem reconciliation_keeps_row_count
    (df_data : list row) (df_deposits : list Dep.t) (df_notes : list Nota.t) :
  let out := recalculate_data df_data df_deposits df_notes in
  length out = length df_data
  ∧ length (filter es_balance out) = length (filter es_balance df_data)
  ∧ length (operational out) = length (operational df_data).
Proof.
  intros out. unfold out. split; [|split].
  - rewrite recalculate_data_perm, length_app, !length_fmap.
    apply length_filter_complement.
  - by rewrite balance_recalculate_perm, length_fmap.
  - by rewrite operational_recalculate_perm, length_fmap.
Qed.



Lemma sumQc_nonneg (l : list Qc) :
  Forall (λ x, Q2Qc 0 ≤ x)%Qc l → (Q2Qc 0 ≤ sumQc l)%Qc.
Proof.
  induction 1 as [|x l Hx _ IH]; [apply Qcle_refl|].
  rewrite sumQc_cons. by apply Qcplus_nonneg_nonneg.
Qed.

Lemma sumQc_filter_mono {A} (g : A → Qc) (P Q : A → Prop)
    `{!∀ x, Decision (P x)} `{!∀ x, Decision (Q x)} (l : list A) :
  (∀ x, x ∈ l → P x → Q x) → (∀ x, x ∈ l → (Q2Qc 0 ≤ g x)%Qc) →
  (sumQc (g <$> filter P l) ≤ sumQc (g <$> filter Q l))%Qc.
Proof.
  induction l as [|x l IH]; intros HPQ Hg; [apply Qcle_refl|].
  assert (sumQc (g <$> filter P l) ≤ sumQc (g <$> filter Q l))%Qc as Hl.
  { apply IH; intros y Hy; [apply HPQ|apply Hg]; by right. }
  assert (Q2Qc 0 ≤ g x)%Qc as Hx by (apply Hg; left).
  rewrite !filter_cons.
  destruct (decide (P x)) as [HP|HP], (decide (Q x)) as [HQ|HQ].
  - rewrite !fmap_cons, !sumQc_cons. by apply Qcplus_le_mono_l.
  - destruct HQ. apply HPQ; [left|done].
  - rewrite fmap_cons, sumQc_cons.
    eapply Qcle_trans; [exact Hl|].
    rewrite <- (Qcplus_0_l (sumQc (g <$> filter Q l))) at 1.
    by apply Qcplus_le_mono_r.
  - exact Hl.
Qed.

(** X4. When no operational date has a negative adjusted daily net, the
    cumulative balance never decreases from a date to a later one, and is
    never below the starting constant. *)
Theorem cumulative_balance_monotone
    (df_data : list row) (df_deposits : list Dep.t) (df_notes : list Nota.t) :
  (∀ d, d ∈ operational_dates df_data →
        (Q2Qc 0 ≤ adjusted_daily_net df_data df_deposits df_notes d)%Qc) →
  let out := recalculate_data df_data df_deposits df_notes in
  (∀ r, r ∈ out → ¬ es_balance r →
        (INITIAL_ACCUMULATED_BALANCE ≤ cell_value (Saldo_Acumulado r))%Qc)
  ∧ (∀ r1 r2 d1 d2, r1 ∈ out → r2 ∈ out → ¬ es_balance r1 → ¬ es_balance r2 →
       Fecha r1 = Some d1 → Fecha r2 = Some d2 → date_leb d1 d2 = true →
       (cell_value (Saldo_Acumulado r1) ≤ cell_value (Saldo_Acumulado r2))%Qc).
Proof.
  intros Hpos out. split.
  - intros r Hr Hnb.
    destruct (elem_of_recalculate_operational _ _ _ _ Hr Hnb) as (r0 & _ & ->).
    simpl. unfold balance_through.
    rewrite <- (Qcplus_0_r INITIAL_ACCUMULATED_BALANCE) at 1.
    apply Qcplus_le_mono_l, sumQc_nonneg, Forall_fmap, Forall_forall.
    intros d [_ Hd]%list_elem_of_filter. by apply Hpos.
  - intros r1 r2 d1 d2 H1 H2 Hb1 Hb2 E1 E2 Hle.
    destruct (elem_of_recalculate_operational _ _ _ _ H1 Hb1) as (a & _ & ->).
    destruct (elem_of_recalculate_operational _ _ _ _ H2 Hb2) as (b & _ & ->).
    simpl in *. rewrite E1, E2. unfold balance_through.
    apply Qcplus_le_mono_l, sumQc_filter_mono; [|done].
    intros d _. simpl. intros Hd. by eapply date_leb_trans.
Qed.

Lemma cumulative_balance_monotone_witness :
  (cell_value
     (Saldo_Acumulado
        (row_final ex_data_pos ex_deposits_pos []
           (stored_row "01" (Some D1) "LIRIS SA" 10 10 0 1)))
   ≤ cell_value
       (Saldo_Acumulado
          (row_final ex_data_pos ex_deposits_pos []
             (stored_row "02" (Some D2) "LIRIS SA" 10 10 0 1))))%Qc.
Proof.
  assert (∀ d, d ∈ operational_dates ex_data_pos →
            (Q2Qc 0 ≤ adjusted_daily_net ex_data_pos ex_deposits_pos [] d)%Qc)
    as Hpos.
  { intros d Hd. change (operational_dates ex_data_pos) with [D1; D2] in Hd.
    apply elem_of_cons in Hd as [->|Hd]; [by vm_compute|].
    apply list_elem_of_singleton in Hd as ->. by vm_compute. }
  destruct (cumulative_balance_monotone ex_data_pos ex_deposits_pos [] Hpos)
    as [_ Hm].
  apply (Hm _ _ D1 D2); try done.
  - rewrite recalculate_data_perm, elem_of_app. right.
    apply list_elem_of_fmap_2, list_elem_of_filter.
    split; [done|]. apply elem_of_cons. right. apply elem_of_cons. by left.
  - rewrite recalculate_data_perm, elem_of_app. right.
    apply list_elem_of_fmap_2, list_elem_of_filter.
    split; [done|]. do 2 (apply elem_of_cons; right). apply elem_of_cons.
    by left.
Defined.

Lemma elem_of_operational_dates df_data d :
  d ∈ operational_dates df_data
  ↔ ∃ r, r ∈ operational df_data ∧ Fecha r = Some d.
Proof.
  unfold operational_dates. by rewrite elem_of_remove_dups, list_elem_of_omap.
Qed.

(** What a reconciled operational row depends on: the deposit totals at the
    keys of the operational rows and the real discounts at their dates. *)
Lemma row_final_ext_in df_data deps deps' notes notes' r :
  (∀ r0, r0 ∈ operational df_data →
         deposit_total deps (Fecha r0) (Proveedor r0)
         = deposit_total deps' (Fecha r0) (Proveedor r0)) →
  (∀ d, d ∈ operational_dates df_data →
        real_discounts notes d = real_discounts notes' d) →
  r ∈ operational df_data →
  row_final df_data deps notes r = row_final df_data deps' notes' r.
Proof.
  intros Hdep Hnote Hr.
  assert (∀ d, d ∈ operational_dates df_data →
               adjusted_daily_net df_data deps notes d
               = adjusted_daily_net df_data deps' notes' d) as Hadj.
  { intros d Hd. unfold adjusted_daily_net. rewrite (Hnote d Hd). f_equal.
    apply sumQc_ext. intros r0 [_ Hr0]%list_elem_of_filter.
    unfold row_net. by rewrite Hdep. }
  assert (balance_through df_data deps notes (Fecha r)
          = balance_through df_data deps' notes' (Fecha r)) as Hbal.
  { unfold balance_through. f_equal. apply sumQc_ext.
    intros d [_ Hd]%list_elem_of_filter. by apply Hadj. }
  assert (broadcast_net df_data deps notes (Fecha r)
          = broadcast_net df_data deps' notes' (Fecha r)) as Hnet.
  { unfold broadcast_net. destruct (Fecha r) as [d|] eqn:E; [|done].
    apply Hadj, elem_of_operational_dates. eauto. }
  unfold row_final, row_201, row_net. by rewrite Hbal, Hnet, (Hdep r Hr).
Qed.

Lemma recalculate_data_ext df_data deps deps' notes notes' :
  (∀ r0, r0 ∈ operational df_data →
         deposit_total deps (Fecha r0) (Proveedor r0)
         = deposit_total deps' (Fecha r0) (Proveedor r0)) →
  (∀ d, d ∈ operational_dates df_data →
        real_discounts notes d = real_discounts notes' d) →
  recalculate_data df_data deps notes = recalculate_data df_data deps' notes'.
Proof.
  intros Hdep Hnote. rewrite !recalculate_data_eq. do 2 f_equal.
  apply fmap_ext_in. intros r Hr. by apply row_final_ext_in.
Qed.



(** X6. A deposit whose date and company are those of no operational row,
    and a debit note whose date is that of no operational row, change
    nothing in the reconciled table. *)
Theorem unmatched_records_are_ignored
    (df_data : list row) (deps : list Dep.t) (notes : list Nota.t)
    (dep : Dep.t) (nota : Nota.t) :
  (∀ r, r ∈ operational df_data →
        ¬ (Fecha r = Dep.Fecha dep ∧ Proveedor r = Dep.Empresa dep)) →
  (∀ r, r ∈ operational df_data → Fecha r ≠ Nota.Fecha nota) →
  recalculate_data df_data (dep :: deps) (nota :: notes)
  = recalculate_data df_data deps notes.
Proof.
  intros Hdep Hnote. apply recalculate_data_ext.
  - intros r Hr. unfold deposit_total, matching_deposits.
    rewrite filter_cons, decide_False; [done|].
    intros (_ & E1 & E2). by apply (Hdep r Hr).
  - intros d (r & Hr & E)%elem_of_operational_dates. unfold real_discounts.
    rewrite filter_cons, decide_False; [done|].
    intros E'. apply (Hnote r Hr). congruence.
Qed.

Lemma unmatched_records_are_ignored_witness :
  recalculate_data ex_data
    (Dep.mk (Some D2) "Medina" "Banco Pichincha" (Num (Q2Qc 70)) "Transferencia" "03"
       :: ex_deposits)
    (Nota.mk (Some (mk_date 2024 6 1)) NaN (Num (Q2Qc 0.1)) NaN (Num (Q2Qc 9))
       :: ex_notes)
  = recalculate_data ex_data ex_deposits ex_notes.
Proof.
  apply unmatched_records_are_ignored.
  - intros r Hr. change (operational ex_data) with [ex_r2; ex_r4; ex_r3; ex_r1] in Hr.
    repeat (apply elem_of_cons in Hr as [->|Hr]; [by intros [? ?]|]).
    by apply elem_of_nil in Hr.
  - intros r Hr. change (operational ex_data) with [ex_r2; ex_r4; ex_r3; ex_r1] in Hr.
    repeat (apply elem_of_cons in Hr as [->|Hr]; [done|]).
    by apply elem_of_nil in Hr.
Defined.

(** X9. The reconciliation never reads the derived columns of the
    operational rows: overwriting them in any way before a run leaves the
    result unchanged. *)
Theorem derived_columns_are_not_read
    (g : row → row)
    (df_data : list row) (df_deposits : list Dep.t) (df_notes : list Nota.t) :
  (∀ r, source_fields (g r) = source_fields r) →
  recalculate_data ((λ r, if decide (es_balance r) then r else g r) <$> df_data)
    df_deposits df_notes
  = recalculate_data df_data df_deposits df_notes.
Proof.
  intros Hg.
  set (g' := λ r, if decide (es_balance r) then r else g r).
  assert (∀ r, Proveedor (g r) = Proveedor r ∧ Fecha (g r) = Fecha r
               ∧ N_ (g r) = N_ r ∧ Producto (g r) = Producto r
               ∧ Cantidad (g r) = Cantidad r
               ∧ Peso_Salida (g r) = Peso_Salida r
               ∧ Peso_Entrada (g r) = Peso_Entrada r
               ∧ Tipo_Documento (g r) = Tipo_Documento r
               ∧ Cantidad_de_gavetas (g r) = Cantidad_de_gavetas r
               ∧ Precio_Unitario (g r) = Precio_Unitario r) as Hf.
  { intros r. specialize (Hg r). unfold source_fields in Hg.
    injection Hg as -> -> -> -> -> -> -> -> -> ->. done. }
  assert (∀ r, es_balance (g' r) ↔ es_balance r) as Hb.
  { intros r. unfold g'. destruct (decide (es_balance r)); [done|].
    unfold es_balance. by rewrite (proj1 (Hf r)). }
  assert (filter es_balance (g' <$> df_data) = filter es_balance df_data) as Hbal.
  { rewrite filter_fmap, (filter_equiv _ es_balance) by (intros; apply Hb).
    rewrite <- (list_fmap_id (filter es_balance df_data)) at 2.
    apply fmap_ext_in. intros r [Hr _]%list_elem_of_filter.
    unfold g'. by rewrite decide_True. }
  assert (operational (g' <$> df_data) = g <$> operational df_data) as Hop.
  { unfold operational. rewrite filter_fmap.
    rewrite (filter_equiv _ (λ r, ¬ es_balance r)) by (intros; by rewrite Hb).
    apply fmap_ext_in. intros r [Hr _]%list_elem_of_filter.
    unfold g'. by rewrite decide_False. }
  assert (∀ r, row_net df_deposits (g r) = row_net df_deposits r) as Hnet.
  { intros r. destruct (Hf r) as (E1 & E2 & _ & _ & _ & E3 & E4 & _ & _ & E5).
    unfold row_net, row_total, converted_weight, net_weight.
    by rewrite E1, E2, E3, E4, E5. }
  assert (∀ d, adjusted_daily_net (g' <$> df_data) df_deposits df_notes d
               = adjusted_daily_net df_data df_deposits df_notes d) as Hadj.
  { intros d. unfold adjusted_daily_net. f_equal.
    rewrite Hop, filter_fmap, <- list_fmap_compose.
    rewrite (filter_equiv _ (λ r, Fecha r = Some d))
      by (intros r _; by rewrite (proj1 (proj2 (Hf r)))).
    apply sumQc_ext. intros r _. apply Hnet. }
  assert (operational_dates (g' <$> df_data) = operational_dates df_data) as Hdates.
  { unfold operational_dates. rewrite Hop. f_equal.
    rewrite <- omap_id_fmap, <- list_fmap_compose, <- (omap_id_fmap Fecha).
    f_equal. apply fmap_ext_in. intros r _. apply (Hf r). }
  rewrite !recalculate_data_eq, Hbal, Hop, <- list_fmap_compose.
  do 2 f_equal. apply fmap_ext_in. intros r _. simpl.
  destruct (Hf r) as (E1 & E2 & E3 & E4 & E5 & E6 & E7 & E8 & E9 & E10).
  unfold row_final, row_201, row_net, row_total, unit_average,
    converted_weight, net_weight, balance_through, broadcast_net.
  rewrite Hdates, E1, E2, E3, E4, E5, E6, E7, E8, E9, E10.
  rewrite (sumQc_ext _ (adjusted_daily_net df_data df_deposits df_notes))
    by (intros; apply Hadj).
  destruct (Fecha r); [by rewrite Hadj|done].
Qed.

Lemma derived_columns_are_not_read_witness :
  recalculate_data
    ((λ r, if decide (es_balance r) then r
           else set_Total (Num (Q2Qc 999)) (set_Saldo_Acumulado NaN r))
       <$> ex_data) ex_deposits ex_notes
  = recalculate_data ex_data ex_deposits ex_notes.
Proof.
  apply (derived_columns_are_not_read
           (λ r, set_Total (Num (Q2Qc 999)) (set_Saldo_Acumulado NaN r))).
  reflexivity.
Defined.

(** *** The effect of one more deposit or debit note *)

Lemma sumQc_app (l1 l2 : list Qc) : sumQc (l1 ++ l2) = (sumQc l1 + sumQc l2)%Qc.
Proof.
  induction l1 as [|x l1 IH]; [by rewrite Qcplus_0_l|].
  change (sumQc (x :: (l1 ++ l2)) = (sumQc (x :: l1) + sumQc l2)%Qc).
  rewrite !sumQc_cons, IH. ring.
Qed.

Lemma sumQc_plus {A} (f g : A → Qc) (l : list A) :
  sumQc ((λ x, f x + g x)%Qc <$> l) = (sumQc (f <$> l) + sumQc (g <$> l))%Qc.
Proof.
  induction l as [|x l IH]; [by rewrite Qcplus_0_l|].
  rewrite !fmap_cons, !sumQc_cons, IH. ring.
Qed.

Lemma Qc_of_Z_0 : Qc_of_Z 0 = Q2Qc 0.
Proof. by apply Qc_is_canon. Qed.

Lemma Qc_of_Z_succ (z : Z) : Qc_of_Z (z + 1) = (Qc_of_Z z + Q2Qc 1)%Qc.
Proof.
  apply Qc_is_canon. unfold Qcplus, Q2Qc, Qc_of_Z. simpl.
  rewrite !Qred_correct. unfold Qeq, inject_Z. simpl. lia.
Qed.

Lemma sumQc_indicator {A} (P : A → Prop) `{!∀ x, Decision (P x)} (m : Qc)
    (l : list A) :
  sumQc ((λ x, if decide (P x) then m else Q2Qc 0) <$> l)
  = (Qc_of_Z (Z.of_nat (length (filter P l))) * m)%Qc.
Proof.
  induction l as [|x l IH].
  - change (Q2Qc 0 = (Q2Qc 0 * m)%Qc). ring.
  - rewrite fmap_cons, sumQc_cons, IH, filter_cons.
    destruct (decide (P x)).
    + rewrite length_cons, Nat2Z.inj_succ, <- Z.add_1_r, Qc_of_Z_succ. ring.
    + ring.
Qed.

(** A term added at one date shows in a sum over distinct dates exactly when
    that date is among them. *)
Lemma sumQc_bump (g g' : date → Qc) (d0 : date) (c : Qc) (l : list date) :
  NoDup l →
  (∀ d, g' d = (g d + (if decide (d = d0) then c else Q2Qc 0))%Qc) →
  sumQc (g' <$> l)
  = (sumQc (g <$> l) + (if decide (d0 ∈ l) then c else Q2Qc 0))%Qc.
Proof.
  intros Hnd Hg. induction Hnd as [|d l Hd Hnd IH].
  - rewrite decide_False by (by intros ?%elem_of_nil).
    change (Q2Qc 0 = (Q2Qc 0 + Q2Qc 0)%Qc). ring.
  - rewrite !fmap_cons, !sumQc_cons, IH, Hg.
    destruct (decide (d = d0)) as [->|Hne].
    + rewrite decide_False by done. rewrite decide_True by left. ring.
    + destruct (decide (d0 ∈ l)) as [Hin|Hin].
      * rewrite decide_True by (by right). ring.
      * rewrite decide_False; [ring|].
        intros [?|?]%elem_of_cons; congruence.
Qed.

Lemma balance_through_bump df_data deps deps' notes notes' d0 c f :
  (∀ d, adjusted_daily_net df_data deps' notes' d
        = (adjusted_daily_net df_data deps notes d
           + (if decide (d = d0) then c else Q2Qc 0))%Qc) →
  balance_through df_data deps' notes' f
  = (balance_through df_data deps notes f
     + (if decide (d0 ∈ operational_dates df_data ∧ date_le_cell d0 f = true)
        then c else Q2Qc 0))%Qc.
Proof.
  intros Hadj. unfold balance_through.
  rewrite (sumQc_bump (adjusted_daily_net df_data deps notes) _ d0 c);
    [|by apply NoDup_filter, NoDup_remove_dups|done].
  rewrite <- Qcplus_assoc. do 2 f_equal.
  destruct (decide (d0 ∈ filter _ (operational_dates df_data))) as [Hin|Hin];
    apply list_elem_of_filter in Hin || rewrite list_elem_of_filter in Hin.
  - rewrite decide_True; [done|tauto].
  - rewrite decide_False; [done|tauto].
Qed.

Lemma elem_of_recalculate_row_final df_data deps notes r0 :
  r0 ∈ operational df_data →
  row_final df_data deps notes r0 ∈ recalculate_data df_data deps notes.
Proof.
  intros Hr0. rewrite recalculate_data_perm, elem_of_app. right.
  by apply list_elem_of_fmap_2.
Qed.

(** The number of operational rows with a given date and counterparty. *)
Lemma deposit_total_snoc deps f p d0 p0 ag m doc n :
  deposit_total (deps ++ [Dep.mk (Some d0) p0 ag (Num m) doc n]) f p
  = (deposit_total deps f p
     + (if decide (f = Some d0 ∧ p = p0) then m else Q2Qc 0))%Qc.
Proof.
  unfold deposit_total, matching_deposits.
  rewrite filter_app, fmap_app, sumQc_app. f_equal.
  rewrite filter_cons, filter_nil. simpl.
  destruct (decide (f = Some d0 ∧ p = p0)) as [[-> ->]|Hne].
  - rewrite decide_True by eauto. simpl. unfold sumQc. simpl. ring.
  - rewrite decide_False; [done|]. intros (_ & <- & <-). by apply Hne.
Qed.

Lemma adjusted_daily_net_deposit_snoc df_data deps notes d0 p0 ag m doc n d :
  adjusted_daily_net df_data (deps ++ [Dep.mk (Some d0) p0 ag (Num m) doc n])
    notes d
  = (adjusted_daily_net df_data deps notes d
     + (if decide (d = d0)
        then Qc_of_Z (Z.of_nat (length (filter (λ r, Fecha r = Some d0
                                                    ∧ Proveedor r = p0)
                                          (operational df_data)))) * m
        else Q2Qc 0))%Qc.
Proof.
  unfold adjusted_daily_net.
  rewrite (sumQc_ext _ (λ r, row_net deps r
                             + (if decide (Fecha r = Some d0 ∧ Proveedor r = p0)
                                then m else Q2Qc 0))%Qc).
  2:{ intros r _. unfold row_net. rewrite deposit_total_snoc. ring. }
  rewrite sumQc_plus, sumQc_indicator, list_filter_filter.
  destruct (decide (d = d0)) as [->|Hne].
  - rewrite (filter_equiv
               (λ r, (Fecha r = Some d0 ∧ Proveedor r = p0) ∧ Fecha r = Some d0)
               (λ r, Fecha r = Some d0 ∧ Proveedor r = p0))
      by (intros r _; simpl; tauto).
    ring.
  - rewrite (filter_empty
               (λ r, (Fecha r = Some d0 ∧ Proveedor r = p0) ∧ Fecha r = Some d)).
    + change (Z.of_nat (length (@nil row))) with 0. rewrite Qc_of_Z_0. ring.
    + intros r _ ((E1 & _) & E2). congruence.
Qed.

(** X7. A deposit added with [add_deposit_record] leaves the rows and the
    notes as they are; in the next reconciliation the rows of its date and
    company show its amount more as deposit amount, and every operational
    row dated on or after its date shows, as cumulative balance, its amount
    once for each operational row of its date and company. *)
Theorem deposit_raises_balances
    (str_isdigit : string → bool) (int_of_str : string → Z)
    (save_ok : bool) (fecha_d : date) (empresa agencia : string) (monto : Qc)
    (a : app_state) :
  let a' :=
    (add_deposit_record str_isdigit int_of_str save_ok fecha_d empresa agencia
       monto a).1 in
  let k :=
    Z.of_nat (length (filter (λ r, Fecha r = Some fecha_d ∧ Proveedor r = empresa)
                        (operational (data (ses a))))) in
  data (ses a') = data (ses a) ∧ notas (ses a') = notas (ses a)
  ∧ ∀ r', r' ∈ recalculate_data (data (ses a')) (df (ses a')) (notas (ses a')) →
          ¬ es_balance r' →
          ∃ r, r ∈ recalculate_data (data (ses a)) (df (ses a)) (notas (ses a))
               ∧ source_fields r = source_fields r'
               ∧ Monto_Deposito r'
                 = Num (cell_value (Monto_Deposito r)
                        + (if decide (Fecha r' = Some fecha_d
                                      ∧ Proveedor r' = empresa)
                           then monto else Q2Qc 0))%Qc
               ∧ Saldo_Acumulado r'
                 = Num (cell_value (Saldo_Acumulado r)
                        + (if date_le_cell fecha_d (Fecha r')
                           then Qc_of_Z k * monto else Q2Qc 0))%Qc.
Proof.
  intros a' k.
  assert (data (ses a') = data (ses a) ∧ notas (ses a') = notas (ses a)
          ∧ df (ses a')
            = df (ses a)
              ++ [Dep.mk (Some fecha_d) empresa agencia (Num monto)
                    (documento_of agencia)
                    (next_deposit_number str_isdigit int_of_str (df (ses a)))])
    as (Hdata & Hnotas & Hdf).
  { unfold a', add_deposit_record. by destruct save_ok. }
  split; [exact Hdata|]. split; [exact Hnotas|].
  rewrite Hdata, Hnotas, Hdf. intros r' Hr' Hnb.
  destruct (elem_of_recalculate_operational _ _ _ _ Hr' Hnb) as (r0 & Hr0 & ->).
  exists (row_final (data (ses a)) (df (ses a)) (notas (ses a)) r0).
  split; [by apply elem_of_recalculate_row_final|]. split; [done|]. split.
  - simpl. by rewrite deposit_total_snoc.
  - simpl. f_equal.
    rewrite (balance_through_bump _ (df (ses a)) _ (notas (ses a)) _ fecha_d
               (Qc_of_Z k * monto)%Qc)
      by (intros d; apply adjusted_daily_net_deposit_snoc).
    f_equal. destruct (date_le_cell fecha_d (Fecha r0)) eqn:Hle.
    + destruct (decide (fecha_d ∈ operational_dates (data (ses a))))
        as [Hin|Hin].
      * by rewrite decide_True.
      * rewrite decide_False by tauto. unfold k. rewrite filter_empty.
        -- change (Z.of_nat (length (@nil row))) with 0.
           rewrite Qc_of_Z_0. ring.
        -- intros r Hr [E _]. apply Hin, elem_of_operational_dates. eauto.
    + rewrite decide_False; [done|]. by intros [_ ?].
Qed.

Lemma deposit_raises_balances_witness :
  let a := mk_app ex_session false false false false in
  let a' :=
    (add_deposit_record (λ _, false) (λ _, 0) true D1 "LIRIS SA"
       "Banco Pichincha" (Q2Qc 20) a).1 in
  ∃ r, r ∈ recalculate_data ex_data ex_deposits ex_notes
       ∧ Saldo_Acumulado
           (row_final ex_data (df (ses a')) ex_notes ex_r2)
         = Num (cell_value (Saldo_Acumulado r) + Qc_of_Z 2 * Q2Qc 20)%Qc.
Proof.
  intros a a'.
  destruct (deposit_raises_balances (λ _, false) (λ _, 0) true D1 "LIRIS SA"
              "Banco Pichincha" (Q2Qc 20) a) as (_ & _ & Hrows).
  destruct (Hrows (row_final ex_data (df (ses a')) ex_notes ex_r2))
    as (r & Hr & _ & _ & Hacc).
  - apply (bool_decide_unpack _). vm_compute. reflexivity.
  - apply (bool_decide_unpack _). vm_compute. reflexivity.
  - exists r. split; [exact Hr|]. exact Hacc.
Defined.

Lemma real_discounts_snoc notes d0 lc dc dp x d :
  real_discounts (notes ++ [Nota.mk (Some d0) lc dc dp (Num x)]) d
  = (real_discounts notes d + (if decide (d = d0) then x else Q2Qc 0))%Qc.
Proof.
  unfold real_discounts. rewrite filter_app, fmap_app, sumQc_app. f_equal.
  rewrite filter_cons, filter_nil. simpl.
  destruct (decide (d = d0)) as [->|Hne].
  - rewrite decide_True by done. unfold sumQc. simpl. ring.
  - rewrite decide_False; [done|]. congruence.
Qed.

(** X8. A debit note added with [add_debit_note] leaves the rows and the
    deposits as they are; in the next reconciliation its declared real
    discount is added to the daily net of the operational rows of its date
    and, when there is such a row, to the cumulative balance of every
    operational row dated on or after it; deposit amounts do not change. *)
Theorem debit_note_raises_balances
    (save_ok : bool) (fecha_nota : date) (descuento descuento_real : Qc)
    (st : session) :
  let st' := (add_debit_note save_ok fecha_nota descuento descuento_real st).1 in
  data st' = data st ∧ df st' = df st
  ∧ ∀ r', r' ∈ recalculate_data (data st') (df st') (notas st') →
          ¬ es_balance r' →
          ∃ r, r ∈ recalculate_data (data st) (df st) (notas st)
               ∧ source_fields r = source_fields r'
               ∧ Monto_Deposito r' = Monto_Deposito r
               ∧ Saldo_diario r'
                 = Num (cell_value (Saldo_diario r)
                        + (if decide (Fecha r' = Some fecha_nota)
                           then descuento_real else Q2Qc 0))%Qc
               ∧ Saldo_Acumulado r'
                 = Num (cell_value (Saldo_Acumulado r)
                        + (if decide (fecha_nota ∈ operational_dates (data st)
                                      ∧ date_le_cell fecha_nota (Fecha r') = true)
                           then descuento_real else Q2Qc 0))%Qc.
Proof.
  intros st'.
  assert (data st' = data st ∧ df st' = df st
          ∧ notas st'
            = notas st
              ++ [Nota.mk (Some fecha_nota)
                    (Num (libras_calculadas (data st) fecha_nota))
                    (Num descuento)
                    (Num (libras_calculadas (data st) fecha_nota * descuento)%Qc)
                    (Num descuento_real)]) as (Hdata & Hdf & Hnotas).
  { unfold st', add_debit_note. by destruct save_ok. }
  split; [exact Hdata|]. split; [exact Hdf|].
  rewrite Hdata, Hdf, Hnotas. intros r' Hr' Hnb.
  destruct (elem_of_recalculate_operational _ _ _ _ Hr' Hnb) as (r0 & Hr0 & ->).
  exists (row_final (data st) (df st) (notas st) r0).
  assert (∀ d, adjusted_daily_net (data st) (df st)
                 (notas st ++ [Nota.mk (Some fecha_nota)
                    (Num (libras_calculadas (data st) fecha_nota))
                    (Num descuento)
                    (Num (libras_calculadas (data st) fecha_nota * descuento)%Qc)
                    (Num descuento_real)]) d
               = (adjusted_daily_net (data st) (df st) (notas st) d
                  + (if decide (d = fecha_nota) then descuento_real
                     else Q2Qc 0))%Qc) as Hadj.
  { intros d. unfold adjusted_daily_net. rewrite real_discounts_snoc. ring. }
  split; [by apply elem_of_recalculate_row_final|]. split; [done|].
  split; [done|]. split.
  - simpl. f_equal. unfold broadcast_net. destruct (Fecha r0) as [d|].
    + rewrite Hadj. f_equal.
      destruct (decide (d = fecha_nota)) as [->|Hne].
      * by rewrite decide_True.
      * rewrite decide_False; [done|]. congruence.
    + rewrite decide_False by done. ring.
  - simpl. f_equal.
    by rewrite (balance_through_bump _ (df st) _ (notas st) _ fecha_nota
                  descuento_real).
Qed.

Lemma debit_note_raises_balances_witness :
  let st' := (add_debit_note true D1 (Q2Qc 0.1) (Q2Qc 7) ex_session).1 in
  ∃ r, r ∈ recalculate_data ex_data ex_deposits ex_notes
       ∧ Saldo_Acumulado (row_final ex_data ex_deposits (notas st') ex_r2)
         = Num (cell_value (Saldo_Acumulado r) + Q2Qc 7)%Qc.
Proof.
  intros st'.
  destruct (debit_note_raises_balances true D1 (Q2Qc 0.1) (Q2Qc 7) ex_session)
    as (_ & _ & Hrows).
  destruct (Hrows (row_final ex_data ex_deposits (notas st') ex_r2))
    as (r & Hr & _ & _ & _ & Hacc).
  - apply (bool_decide_unpack _). vm_compute. reflexivity.
  - apply (bool_decide_unpack _). vm_compute. reflexivity.
  - exists r. split; [exact Hr|].
    rewrite Hacc. rewrite decide_True; [done|].
    split; [|reflexivity]. change (operational_dates ex_data) with [D2; D1].
    right. left.
Defined.

(** ** 16. Properties of the operations on transaction rows *)

Lemma Qc_max_ge_l (a b : Qc) : (a ≤ Qc_max a b)%Qc.
Proof. unfold Qc_max. destruct (decide (a ≤ b)%Qc); [done|apply Qcle_refl]. Qed.

Lemma Qc_max_ge_r (a b : Qc) : (b ≤ Qc_max a b)%Qc.
Proof.
  unfold Qc_max. destruct (decide (a ≤ b)%Qc) as [|Hn]; [apply Qcle_refl|].
  apply Qclt_le_weak. by apply Qclt_nge.
Qed.

Lemma foldl_Qc_max_ge (l : list Qc) (x y : Qc) :
  y = x ∨ y ∈ l → (y ≤ foldl Qc_max x l)%Qc.
Proof.
  revert x y. induction l as [|z l IH]; intros x y Hy; simpl.
  - destruct Hy as [->|Hy]; [apply Qcle_refl|by apply elem_of_nil in Hy].
  - destruct Hy as [E|Hy].
    + eapply Qcle_trans; [|apply (IH (Qc_max x z)); by left].
      rewrite E. apply Qc_max_ge_l.
    + apply elem_of_cons in Hy as [E|Hy].
      * eapply Qcle_trans; [|apply (IH (Qc_max x z)); by left].
        rewrite E. apply Qc_max_ge_r.
      * apply IH. by right.
Qed.

Lemma column_max_ge (l : list Qc) (y : Qc) : y ∈ l → (y ≤ column_max l)%Qc.
Proof.
  destruct l as [|x l]; [by intros ?%elem_of_nil|].
  intros Hy. apply foldl_Qc_max_ge. apply elem_of_cons in Hy. tauto.
Qed.

(** [int(q) + 1] exceeds [q], whatever the sign of [q]. *)
Lemma py_int_succ_gt (q : Qc) : (q < Qc_of_Z (Qnum (this (py_int q)) + 1))%Qc.
Proof.
  unfold py_int. destruct q as [[n d] Hq]. unfold Qclt, Qlt. simpl.
  pose proof (Z.quot_rem' n (Z.pos d)) as Hqr.
  assert (Z.rem n (Z.pos d) < Z.pos d).
  { destruct (Z_le_gt_dec 0 n).
    - apply Z.rem_bound_pos_pos; lia.
    - pose proof (Z.rem_bound_pos_neg n (Z.pos d)). lia. }
  nia.
Qed.

(** X10. The sequence number given to a new row is "01" when there is no
    operational row; otherwise it is the two-digit form of an integer that
    exceeds the number read from the N of every operational row (an N that
    cannot be read counting 0).  Balance rows play no part. *)
Theorem next_sequence_number_is_fresh
    (to_numeric : string → cell) (df_rows : list row) :
  (operational df_rows = [] → get_next_n to_numeric df_rows = "01")
  ∧ get_next_n to_numeric (operational df_rows) = get_next_n to_numeric df_rows
  ∧ (operational df_rows ≠ [] →
     ∃ k, get_next_n to_numeric df_rows = format_02 k
          ∧ ∀ r, r ∈ operational df_rows →
                 (cell_value (to_numeric (N_ r)) < Qc_of_Z k)%Qc).
Proof.
  split; [|split].
  - unfold get_next_n, operational. by intros ->.
  - unfold get_next_n, operational.
    by rewrite list_filter_filter, (filter_equiv _ (λ r, ¬ es_balance r))
      by (intros; tauto).
  - unfold get_next_n, operational. intros Hne.
    destruct (filter (λ r, ¬ es_balance r) df_rows) as [|r0 l] eqn:E; [done|].
    eexists. split; [reflexivity|]. intros r Hr.
    eapply Qcle_lt_trans; [|apply py_int_succ_gt].
    apply column_max_ge.
    rewrite <- (cell_value_fillna (to_numeric (N_ r))).
    by apply (list_elem_of_fmap_2
                (λ r, cell_value (fillna (Q2Qc 0) (to_numeric (N_ r))))).
Qed.

Lemma next_sequence_number_is_fresh_witness :
  ∃ k, get_next_n (λ _, Num (Q2Qc 7.5)) ex_data = format_02 k
       ∧ (cell_value (Num (Q2Qc 7.5)) < Qc_of_Z k)%Qc.
Proof.
  destruct (next_sequence_number_is_fresh (λ _, Num (Q2Qc 7.5)) ex_data)
    as (_ & _ & Hk).
  destruct Hk as (k & Hk & Hall); [done|].
  exists k. split; [exact Hk|]. apply (Hall ex_r1).
  apply (bool_decide_unpack _). vm_compute. reflexivity.
Defined.

(** X11. [add_supplier_record] accepts exactly the inputs with no negative
    number, not all of unit count and weights zero, and inbound weight at
    most the outbound weight.  An accepted row is appended to the session
    table, after the balance rows and the operational rows, whether or not
    the save succeeds, and the result is the outcome of the save; a rejected
    input changes nothing and saves nothing. *)
Theorem add_supplier_record_acceptance
    (to_numeric : string → cell) (save_ok : bool) (fecha : date)
    (proveedor : string) (cantidad peso_salida peso_entrada : Qc)
    (tipo_documento : string) (gavetas precio_unitario : Qc) (st : session) :
  let valid :=
    ((Q2Qc 0 ≤ cantidad ∧ Q2Qc 0 ≤ peso_salida ∧ Q2Qc 0 ≤ peso_entrada
      ∧ Q2Qc 0 ≤ precio_unitario ∧ Q2Qc 0 ≤ gavetas)%Qc
     ∧ ¬ (cantidad = Q2Qc 0 ∧ peso_salida = Q2Qc 0 ∧ peso_entrada = Q2Qc 0)
     ∧ (peso_entrada ≤ peso_salida)%Qc) in
  let res :=
    add_supplier_record to_numeric save_ok fecha proveedor cantidad peso_salida
      peso_entrada tipo_documento gavetas precio_unitario st in
  (valid →
   res.1.1 = save_ok
   ∧ (∃ fila, data res.1.2
              = filter es_balance (data st) ++ operational (data st) ++ [fila]
              ∧ N_ fila = get_next_n to_numeric (data st)
              ∧ Fecha fila = Some fecha ∧ Proveedor fila = proveedor)
   ∧ df res.1.2 = df st ∧ notas res.1.2 = notas st
   ∧ Save_dataframe "proveedores" ∈ res.2)
  ∧ (¬ valid →
     res.1.1 = false ∧ res.1.2 = st ∧ ∃ msg, res.2 = [St_error msg]).
Proof.
  intros valid res. unfold res, add_supplier_record.
  destruct (negb _) eqn:Hneg.
  { split; [|by eauto]. intros ((H1 & H2 & H3 & H4 & H5) & _). exfalso.
    apply negb_true_iff in Hneg. simpl in Hneg.
    by rewrite !bool_decide_eq_true_2 in Hneg. }
  apply negb_false_iff in Hneg. simpl in Hneg.
  rewrite !andb_true_iff, !bool_decide_eq_true in Hneg.
  destruct Hneg as (H1 & H2 & H3 & H4 & H5 & _).
  destruct (decide (cantidad = Q2Qc 0 ∧ _)) as [Hz|Hz].
  { split; [|by eauto]. by intros (_ & Hnz & _). }
  destruct (decide (peso_salida < peso_entrada)%Qc) as [Hlt|Hle].
  { split; [|by eauto]. intros (_ & _ & Hle). by apply Qclt_not_le in Hlt. }
  split.
  - intros _. destruct save_ok; simpl.
    + split; [done|]. split; [eexists; split; [reflexivity|done]|].
      split; [done|]. split; [done|]. left.
    + split; [done|]. split; [eexists; split; [reflexivity|done]|].
      split; [done|]. split; [done|]. left.
  - intros Hnv. exfalso. apply Hnv. unfold valid. split; [done|].
    split; [done|]. by apply Qcnot_lt_le.
Qed.

Lemma add_supplier_record_acceptance_witness :
  let res :=
    add_supplier_record (λ _, NaN) false D2 "Medina" (Q2Qc 0) (Q2Qc 30)
      (Q2Qc 30) "Factura" (Q2Qc 0) (Q2Qc 2) ex_session in
  res.1.1 = false ∧ length (data res.1.2) = 6%nat.
Proof.
  intros res.
  destruct (add_supplier_record_acceptance (λ _, NaN) false D2 "Medina"
              (Q2Qc 0) (Q2Qc 30) (Q2Qc 30) "Factura" (Q2Qc 0) (Q2Qc 2)
              ex_session) as [Hok _].
  destruct Hok as (Hres & (fila & Hdata & _) & _).
  - split; [by vm_compute|]. split; [|by vm_compute].
    intros (_ & Hps & _). by vm_compute in Hps.
  - split; [exact Hres|]. fold res in Hdata. by rewrite Hdata.
Defined.

Lemma Qcinv_nonneg (c : Qc) : (Q2Qc 0 ≤ c → Q2Qc 0 ≤ / c)%Qc.
Proof.
  unfold Qcle, Qcinv. intros Hc.
  change (this (Q2Qc (/ c))) with (Qred (/ c)). rewrite Qred_correct.
  change (this (Q2Qc 0)) with 0%Q in *. by apply Qinv_le_0_compat.
Qed.

(** X12. A row accepted by [add_supplier_record] has a net weight, a
    converted weight, an average and a total that are not negative. *)
Theorem accepted_row_is_nonnegative
    (to_numeric : string → cell) (save_ok : bool) (fecha : date)
    (proveedor : string) (cantidad peso_salida peso_entrada : Qc)
    (tipo_documento : string) (gavetas precio_unitario : Qc)
    (st : session) (fila : row) :
  let res :=
    add_supplier_record to_numeric save_ok fecha proveedor cantidad peso_salida
      peso_entrada tipo_documento gavetas precio_unitario st in
  data res.1.2 ≠ data st → last (data res.1.2) = Some fila →
  (Q2Qc 0 ≤ cell_value (Kilos_Restantes fila)
   ∧ Q2Qc 0 ≤ cell_value (Libras_Restantes fila)
   ∧ Q2Qc 0 ≤ cell_value (Promedio fila)
   ∧ Q2Qc 0 ≤ cell_value (Total fila))%Qc.
Proof.
  intros res. unfold res, add_supplier_record.
  destruct (negb _) eqn:Hneg; [done|].
  apply negb_false_iff in Hneg. simpl in Hneg.
  rewrite !andb_true_iff, !bool_decide_eq_true in Hneg.
  destruct Hneg as (H1 & H2 & H3 & H4 & H5 & _).
  destruct (decide (cantidad = Q2Qc 0 ∧ _)) as [Hz|Hz]; [done|].
  destruct (decide (peso_salida < peso_entrada)%Qc) as [Hlt|Hle]; [done|].
  apply Qcnot_lt_le in Hle. intros _ Hlast.
  assert (Q2Qc 0 ≤ peso_salida - peso_entrada)%Qc as Hk.
  { unfold Qcminus. by apply Qcle_minus_iff in Hle. }
  assert (Q2Qc 0 ≤ (peso_salida - peso_entrada) * LBS_PER_KG)%Qc as Hl.
  { apply Qcmult_nonneg_nonneg; [done|by vm_compute]. }
  assert (fila
          = mk_row (get_next_n to_numeric (data st)) (Some fecha) proveedor
              (Some PRODUCT_NAME) (Num (py_int cantidad)) (Num peso_salida)
              (Num peso_entrada) (Some tipo_documento) (Num (py_int gavetas))
              (Num precio_unitario)
              (Num (if decide (cantidad = Q2Qc 0) then Q2Qc 0
                    else ((peso_salida - peso_entrada) * LBS_PER_KG
                          / cantidad)%Qc))
              (Num (peso_salida - peso_entrada)%Qc)
              (Num ((peso_salida - peso_entrada) * LBS_PER_KG)%Qc)
              (Num ((peso_salida - peso_entrada) * LBS_PER_KG
                    * precio_unitario)%Qc)
              (Num (Q2Qc 0)) (Num (Q2Qc 0)) (Num (Q2Qc 0))) as ->.
  { destruct save_ok; simpl in Hlast;
      rewrite app_assoc, last_snoc in Hlast; by injection Hlast. }
  simpl. split; [done|]. split; [done|]. split.
  - destruct (decide (cantidad = Q2Qc 0)); [apply Qcle_refl|].
    unfold Qcdiv. apply Qcmult_nonneg_nonneg; [done|by apply Qcinv_nonneg].
  - by apply Qcmult_nonneg_nonneg.
Qed.

Lemma accepted_row_is_nonnegative_witness :
  ∃ fila,
    last (data (add_supplier_record (λ _, NaN) true D2 "Medina" (Q2Qc 4)
                  (Q2Qc 30) (Q2Qc 10) "Factura" (Q2Qc 0) (Q2Qc 2)
                  ex_session).1.2) = Some fila
    ∧ (Q2Qc 0 ≤ cell_value (Total fila))%Qc.
Proof.
  eexists. split; [reflexivity|].
  eapply (accepted_row_is_nonnegative (λ _, NaN) true D2 "Medina" (Q2Qc 4)
            (Q2Qc 30) (Q2Qc 10) "Factura" (Q2Qc 0) (Q2Qc 2) ex_session);
    [|reflexivity].
  intros E. apply (f_equal length) in E. by vm_compute in E.
Defined.

Lemma filter_delete_other {A} (P : A → Prop) `{!∀ x, Decision (P x)}
    (l : list A) (i : nat) (x : A) :
  l !! i = Some x → ¬ P x → filter P (delete i l) = filter P l.
Proof.
  revert i. induction l as [|y l IH]; intros [|i] Hi Hx; try done.
  - simpl in Hi. injection Hi as ->. simpl. by rewrite filter_cons, decide_False.
  - simpl in Hi. simpl. rewrite !filter_cons, (IH i Hi Hx). done.
Qed.

Lemma delete_snoc_length {A} (l : list A) (x : A) :
  delete (length l) (l ++ [x]) = l.
Proof. induction l as [|y l IH]; [done|]. simpl. by rewrite IH. Qed.

Lemma lookup_snoc_length {A} (l : list A) (x : A) :
  (l ++ [x]) !! length l = Some x.
Proof. induction l as [|y l IH]; [done|]. exact IH. Qed.

(** X13. [delete_record] never removes a balance row and never touches the
    deposits or the notes; an index outside the table changes nothing and
    is reported; the index of an operational row removes that row and no
    other. *)
Theorem delete_record_frame (save_ok : bool) (index : nat) (st : session) :
  let res := delete_record save_ok index st in
  filter es_balance (data res.1) = filter es_balance (data st)
  ∧ df res.1 = df st ∧ notas res.1 = notas st
  ∧ (data st !! index = None → res.1 = st ∧ ∃ msg, res.2 = [St_error msg])
  ∧ (∀ r, data st !! index = Some r → ¬ es_balance r →
          data res.1 = delete index (data st)
          ∧ S (length (data res.1)) = length (data st)).
Proof.
  intros res. unfold res, delete_record.
  destruct (data st !! index) as [r|] eqn:Hi.
  - destruct (decide (es_balance r)) as [Hb|Hnb].
    + split; [done|]. split; [done|]. split; [done|]. split; [done|].
      by intros r' [= <-] Hnb.
    + assert (S (length (delete index (data st))) = length (data st)) as Hlen.
      { rewrite length_delete by eauto.
        apply lookup_lt_Some in Hi. lia. }
      destruct save_ok; simpl;
        (split; [by eapply filter_delete_other|]);
        (split; [done|]); (split; [done|]); (split; [done|]);
        by intros r' _ _.
  - split; [done|]. split; [done|]. split; [done|]. split; [|done].
    intros _. split; [done|]. eauto.
Qed.

Lemma delete_record_frame_witness :
  data (delete_record true 1 ex_session).1 = delete 1%nat ex_data
  ∧ S (length (data (delete_record true 1 ex_session).1)) = length ex_data.
Proof.
  destruct (delete_record_frame true 1 ex_session) as (_ & _ & _ & _ & Hdel).
  destruct (Hdel ex_r2) as (H1 & H2); [reflexivity|discriminate|].
  split; [exact H1|exact H2].
Defined.

(** X14. [edit_supplier_record] changes at most the row at the given index:
    the table keeps its length, every other row, the deposits and the
    notes; an index outside the table changes nothing and is reported. *)
Theorem edit_supplier_record_frame
    (save_ok : bool) (index : nat) (updated_data : list update) (st : session) :
  let res := edit_supplier_record save_ok index updated_data st in
  length (data res.1) = length (data st)
  ∧ (∀ j, j ≠ index → data res.1 !! j = data st !! j)
  ∧ df res.1 = df st ∧ notas res.1 = notas st
  ∧ (data st !! index = None → res.1 = st ∧ ∃ msg, res.2 = [St_error msg]).
Proof.
  intros res. unfold res, edit_supplier_record.
  destruct (data st !! index) as [r|] eqn:Hi.
  - destruct (decide (es_balance r)).
    { split; [done|]. split; [done|]. split; [done|]. by split. }
    destruct save_ok; simpl; rewrite length_insert;
      (split; [done|]);
      (split; [by intros j Hj; apply list_lookup_insert_ne|]);
      (split; [done|]); by split.
  - split; [done|]. split; [done|]. split; [done|]. split; [done|].
    intros _. split; [done|]. eauto.
Qed.

Lemma edit_supplier_record_frame_witness :
  data (edit_supplier_record true 1 [Upd_Peso_Salida (Q2Qc 12)] ex_session).1
    !! 2%nat
  = Some ex_r4.
Proof.
  destruct (edit_supplier_record_frame true 1 [Upd_Peso_Salida (Q2Qc 12)]
              ex_session) as (_ & Hother & _).
  rewrite Hother; [reflexivity|discriminate].
Defined.

Lemma promedio_of_Num (l c : Qc) :
  promedio_of (Num l) (Num c)
  = Num (if decide (c = Q2Qc 0) then Q2Qc 0 else (l / c)%Qc).
Proof. exact (promedio_of_coerced l (Num c)). Qed.

Lemma rederive_row_final df_data df_deposits df_notes r :
  rederive_row (row_final df_data df_deposits df_notes r)
  = row_final df_data df_deposits df_notes r.
Proof.
  unfold rederive_row, row_final, row_201, row_total, unit_average,
    converted_weight, net_weight.
  destruct r as [n f p pr ca ps pe td ga pu pm ki li to md sd sa]; simpl.
  unfold set_Total, set_Saldo_Acumulado; simpl.
  destruct ca as [ca|], ps, pe, pu; simpl; rewrite promedio_of_Num;
    reflexivity.
Qed.

(** X15. On a reconciled table an edit that updates nothing changes
    nothing: the derived fields [edit_supplier_record] computes for a row
    are the ones the reconciliation left there. *)
Theorem empty_edit_after_reconciliation
    (save_ok : bool) (index : nat) (st0 : session) :
  let st := (recalculate_accumulated_balances st0).1 in
  data (edit_supplier_record save_ok index [] st).1 = data st.
Proof.
  intros st. unfold edit_supplier_record.
  destruct (data st !! index) as [r|] eqn:Hi; [|done].
  destruct (decide (es_balance r)) as [Hb|Hnb]; [done|].
  assert (rederive_row r = r) as Hr.
  { apply list_elem_of_lookup_2 in Hi. unfold st in Hi. simpl in Hi.
    destruct (elem_of_recalculate_operational _ _ _ _ Hi Hnb) as (r0 & _ & ->).
    apply rederive_row_final. }
  simpl. rewrite Hr. destruct save_ok; simpl; by apply list_insert_id.
Qed.

(** X16. Adding a row and deleting it again at its index gives, after the
    reconciliation, the table the reconciliation gives without the two
    steps. *)
Theorem add_then_delete_record
    (to_numeric : string → cell) (ok1 ok2 : bool) (fecha : date)
    (proveedor : string) (cantidad peso_salida peso_entrada : Qc)
    (tipo_documento : string) (gavetas precio_unitario : Qc) (st : session) :
  proveedor ≠ BALANCE_INICIAL →
  let st1 :=
    (add_supplier_record to_numeric ok1 fecha proveedor cantidad peso_salida
       peso_entrada tipo_documento gavetas precio_unitario st).1.2 in
  data st1 ≠ data st →
  let st2 := (delete_record ok2 (length (data st)) st1).1 in
  recalculate_data (data st2) (df st2) (notas st2)
  = recalculate_data (data st) (df st) (notas st).
Proof.
  intros Hprov st1. unfold st1, add_supplier_record.
  destruct (negb _); [done|].
  destruct (decide (cantidad = Q2Qc 0 ∧ _)); [done|].
  destruct (decide (peso_salida < peso_entrada)%Qc); [done|].
  intros _. set (fila := mk_row _ _ _ _ _ _ _ _ _ _ _ _ _ _ _ _ _).
  assert (length (data st)
          = length (filter es_balance (data st) ++ operational (data st)))
    as Hlen.
  { rewrite length_app. symmetry. apply length_filter_complement. }
  set (l := filter es_balance (data st) ++ operational (data st)) in *.
  assert (recalculate_data l (df st) (notas st)
          = recalculate_data (data st) (df st) (notas st)) as Hrec.
  { assert (filter es_balance l = filter es_balance (data st)) as E1.
    { unfold l, operational. rewrite filter_app, !list_filter_filter.
      rewrite (filter_equiv (λ r, es_balance r ∧ es_balance r) es_balance)
        by (intros; tauto).
      rewrite (filter_empty (λ r, es_balance r ∧ ¬ es_balance r))
        by (intros; tauto).
      by rewrite app_nil_r. }
    assert (filter (λ r, ¬ es_balance r) l
            = filter (λ r, ¬ es_balance r) (data st)) as E2.
    { unfold l, operational. rewrite filter_app, !list_filter_filter.
      rewrite (filter_empty (λ r, ¬ es_balance r ∧ es_balance r))
        by (intros; tauto).
      by rewrite (filter_equiv (λ r, ¬ es_balance r ∧ ¬ es_balance r)
                    (λ r, ¬ es_balance r)) by (intros; tauto). }
    unfold recalculate_data, operaciones_201. by rewrite E1, E2. }
  assert (¬ es_balance fila) as Hnb by exact Hprov.
  destruct ok1; simpl; unfold delete_record; simpl;
    rewrite app_assoc; fold l;
    rewrite Hlen, lookup_snoc_length, decide_False by done;
    rewrite delete_snoc_length; destruct ok2; exact Hrec.
Qed.

Lemma add_then_delete_record_witness :
  let st1 :=
    (add_supplier_record (λ _, NaN) true D2 "Medina" (Q2Qc 4) (Q2Qc 30)
       (Q2Qc 10) "Factura" (Q2Qc 0) (Q2Qc 2) ex_session).1.2 in
  let st2 := (delete_record true (length ex_data) st1).1 in
  recalculate_data (data st2) (df st2) (notas st2)
  = recalculate_data ex_data ex_deposits ex_notes.
Proof.
  apply (add_then_delete_record (λ _, NaN) true true D2 "Medina" (Q2Qc 4)
           (Q2Qc 30) (Q2Qc 10) "Factura" (Q2Qc 0) (Q2Qc 2) ex_session).
  - discriminate.
  - intros E. apply (f_equal length) in E. by vm_compute in E.
Defined.

(** ** 17. Properties of the operations on deposits and debit notes *)

Lemma get_Agencia_snoc (l : list dep_update) (u : dep_update) (x : string) :
  get_Agencia (l ++ [u]) x
  = match u with DUpd_Agencia v => v | _ => get_Agencia l x end.
Proof. unfold get_Agencia. by rewrite foldl_app. Qed.

Lemma Agencia_foldl (l : list dep_update) (d : Dep.t) :
  Dep.Agencia (foldl apply_dep_update d l) = get_Agencia l (Dep.Agencia d).
Proof.
  induction l as [|u l IH] using rev_ind; [done|].
  rewrite foldl_app, get_Agencia_snoc. simpl. by destruct u.
Qed.

Lemma get_Agencia_idemp (l : list dep_update) (x : string) :
  get_Agencia l (get_Agencia l x) = get_Agencia l x.
Proof.
  induction l as [|u l IH] using rev_ind; [done|].
  rewrite !get_Agencia_snoc. destruct u; try done; by rewrite get_Agencia_snoc.
Qed.

(** X17. In a deposit table where the document kind of every record is the
    one its agency gives ("Deposito" for an agency whose name contains
    "Cajero", "Transferencia" otherwise), this still holds after adding,
    editing or deleting a record, whatever the edit writes, the document
    kind included. *)
Theorem documento_follows_agencia
    (str_isdigit : string → bool) (int_of_str : string → Z)
    (save_ok : bool) (a : app_state) :
  Forall (λ d, Dep.Documento d = documento_of (Dep.Agencia d)) (df (ses a)) →
  (∀ fecha_d empresa agencia monto,
     Forall (λ d, Dep.Documento d = documento_of (Dep.Agencia d))
       (df (ses (add_deposit_record str_isdigit int_of_str save_ok fecha_d
                   empresa agencia monto a).1)))
  ∧ (∀ index updated_data,
       Forall (λ d, Dep.Documento d = documento_of (Dep.Agencia d))
         (df (ses (edit_deposit_record save_ok index updated_data a).1)))
  ∧ (∀ index,
       Forall (λ d, Dep.Documento d = documento_of (Dep.Agencia d))
         (df (ses (delete_deposit_record save_ok index a).1))).
Proof.
  intros Hinv. split; [|split].
  - intros fecha_d empresa agencia monto. unfold add_deposit_record.
    destruct save_ok; simpl; apply Forall_app; (split; [done|]);
      by repeat constructor.
  - intros index updated_data. unfold edit_deposit_record.
    destruct (df (ses a) !! index) as [d|] eqn:Hi; [|done].
    destruct save_ok; simpl; apply Forall_insert; try done; simpl;
      by rewrite Agencia_foldl, get_Agencia_idemp.
  - intros index. unfold delete_deposit_record.
    destruct (df (ses a) !! index) as [d|] eqn:Hi; [|done].
    destruct save_ok; simpl; by apply Forall_delete.
Qed.

Lemma documento_follows_agencia_witness :
  Forall (λ d, Dep.Documento d = documento_of (Dep.Agencia d))
    (df (ses (edit_deposit_record true 0
                [DUpd_Agencia "Cajero Automatico Pichincha";
                 DUpd_Documento "Transferencia"]
                (mk_app ex_session false false false false)).1)).
Proof.
  apply (documento_follows_agencia (λ _, false) (λ _, 0) true
           (mk_app ex_session false false false false)).
  repeat constructor.
Defined.

(** X18. Deleting the record that was just added, at its index, gives back
    the table as it was: for deposits with [add_deposit_record] and
    [delete_deposit_record], for debit notes with [add_debit_note] and
    [delete_debit_note_record].  The other two tables are not touched. *)
Theorem add_then_delete_restores_table
    (str_isdigit : string → bool) (int_of_str : string → Z)
    (ok1 ok2 : bool) (a : app_state) :
  (∀ fecha_d empresa agencia monto,
     let a1 :=
       (add_deposit_record str_isdigit int_of_str ok1 fecha_d empresa agencia
          monto a).1 in
     let a2 := (delete_deposit_record ok2 (length (df (ses a))) a1).1 in
     df (ses a2) = df (ses a) ∧ data (ses a2) = data (ses a)
     ∧ notas (ses a2) = notas (ses a))
  ∧ (∀ fecha_nota descuento descuento_real,
       let st1 :=
         (add_debit_note ok1 fecha_nota descuento descuento_real (ses a)).1 in
       let a2 :=
         (delete_debit_note_record ok2 (length (notas (ses a)))
            (with_ses st1 a)).1 in
       notas (ses a2) = notas (ses a) ∧ data (ses a2) = data (ses a)
       ∧ df (ses a2) = df (ses a)).
Proof.
  split.
  - intros fecha_d empresa agencia monto. unfold add_deposit_record.
    destruct ok1; simpl; unfold delete_deposit_record; simpl;
      rewrite lookup_snoc_length, delete_snoc_length; by destruct ok2.
  - intros fecha_nota descuento descuento_real. unfold add_debit_note.
    destruct ok1; simpl; unfold delete_debit_note_record; simpl;
      rewrite lookup_snoc_length, delete_snoc_length; by destruct ok2.
Qed.

(** X19. The registration forms keep bad amounts out: a deposit submitted
    with an amount that is not positive is refused, so that a table of
    positive amounts stays one; a debit note submitted with neither a
    positive rate nor a positive real discount is refused.  A refusal is
    one error message, with the session unchanged and nothing saved. *)
Theorem forms_refuse_empty_amounts
    (str_isdigit : string → bool) (int_of_str : string → Z) (save_ok : bool) :
  (∀ fecha_d empresa agencia monto a,
     (monto ≤ Q2Qc 0)%Qc →
     ∃ msg, submit_deposit_form str_isdigit int_of_str save_ok fecha_d empresa
              agencia monto a = (a, [St_error msg]))
  ∧ (∀ fecha_d empresa agencia monto a,
       Forall (λ d, Q2Qc 0 < cell_value (Dep.Monto d))%Qc (df (ses a)) →
       Forall (λ d, Q2Qc 0 < cell_value (Dep.Monto d))%Qc
         (df (ses (submit_deposit_form str_isdigit int_of_str save_ok fecha_d
                     empresa agencia monto a).1)))
  ∧ (∀ fecha_nota descuento descuento_real st,
       (descuento ≤ Q2Qc 0)%Qc → (descuento_real ≤ Q2Qc 0)%Qc →
       ∃ msg, submit_debit_note_form save_ok fecha_nota descuento descuento_real
                st = (st, [St_error msg])).
Proof.
  split; [|split].
  - intros fecha_d empresa agencia monto a Hm. unfold submit_deposit_form.
    rewrite decide_True by done. eauto.
  - intros fecha_d empresa agencia monto a Hpos. unfold submit_deposit_form.
    destruct (decide (monto ≤ Q2Qc 0)%Qc) as [|Hm]; [done|].
    apply Qcnot_le_lt in Hm. unfold add_deposit_record.
    destruct save_ok; simpl; apply Forall_app; (split; [done|]);
      by repeat constructor.
  - intros fecha_nota descuento descuento_real st H1 H2.
    unfold submit_debit_note_form. rewrite decide_False; [eauto|].
    intros [H|H]; by eapply Qclt_not_le.
Qed.

Lemma forms_refuse_empty_amounts_witness :
  ∃ msg,
    submit_deposit_form (λ _, false) (λ _, 0) true D1 "LIRIS SA"
      "Banco Pichincha" (Q2Qc 0) (mk_app ex_session false false false false)
    = (mk_app ex_session false false false false, [St_error msg]).
Proof.
  apply (proj1 (forms_refuse_empty_amounts (λ _, false) (λ _, 0) true)).
  by vm_compute.
Defined.

(** X20. The first initialization leaves the table with as many balance
    rows as the loaded table has, and with exactly one when it has none; a
    save of the table with the new balance row is attempted only in that
    case, before the save of the reconciliation. *)
Theorem initialization_balance_rows (db : database) (ss : raw_session) :
  raw_data ss = None →
  let res := initialize_session_state db ss in
  let loaded := length (filter es_balance (tbl_proveedores db)) in
  length (filter es_balance (data res.1)) = Nat.max 1 loaded
  ∧ length (data res.1)
    = (length (tbl_proveedores db) + (1 - loaded))%nat
  ∧ res.2 = (if decide (loaded = 0%nat)
             then [Save_dataframe "proveedores"; Save_dataframe "proveedores"]
             else [Save_dataframe "proveedores"]).
Proof.
  intros Hraw res loaded. unfold res, initialize_session_state. rewrite Hraw.
  destruct (decide (Exists es_balance (tbl_proveedores db))) as [Hex|Hex];
    simpl.
  - assert (loaded ≠ 0%nat) as Hl.
    { unfold loaded. apply Exists_exists in Hex as (r & Hr & Hb).
      intros E%length_zero_iff_nil.
      assert (r ∈ filter es_balance (tbl_proveedores db)) as Hin
        by (by apply list_elem_of_filter).
      rewrite E in Hin. by apply elem_of_nil in Hin. }
    rewrite balance_recalculate_perm, length_fmap. fold loaded.
    rewrite recalculate_data_perm, length_app, !length_fmap.
    unfold operational.
    rewrite (length_filter_complement es_balance), decide_False by done.
    split; [lia|]. split; [lia|done].
  - assert (loaded = 0%nat) as Hl.
    { unfold loaded. rewrite filter_empty; [done|].
      intros r Hr Hb. apply Hex, Exists_exists. eauto. }
    rewrite balance_recalculate_perm, length_fmap.
    rewrite recalculate_data_perm, length_app, !length_fmap.
    unfold operational.
    rewrite (length_filter_complement es_balance), decide_True by done.
    rewrite (filter_cons es_balance), decide_True by done. simpl.
    fold loaded. split; [lia|]. split; [lia|done].
Qed.

Lemma initialization_balance_rows_witness :
  length (filter es_balance
            (data (initialize_session_state (mk_database [ex_r1; ex_r2] [] [])
                     (mk_raw_session None None None None None None None None)).1))
  = 1%nat.
Proof.
  exact (proj1 (initialization_balance_rows (mk_database [ex_r1; ex_r2] [] [])
                  (mk_raw_session None None None None None None None None)
                  eq_refl)).
Defined.

(** X21. In a table of debit notes where the possible discount of every
    note is its computed weight times its rate, this still holds after
    adding, editing or deleting a note. *)
Theorem debit_note_fields_stay_consistent (save_ok : bool) (a : app_state) :
  Forall nota_consistent (notas (ses a)) →
  (∀ fecha_nota descuento descuento_real,
     Forall nota_consistent
       (notas (add_debit_note save_ok fecha_nota descuento descuento_real
                 (ses a)).1))
  ∧ (∀ index updated_data,
       Forall nota_consistent
         (notas (edit_debit_note_record save_ok index updated_data (ses a)).1))
  ∧ (∀ index,
       Forall nota_consistent
         (notas (ses (delete_debit_note_record save_ok index a).1))).
Proof.
  intros Hinv. split; [|split].
  - intros fecha_nota descuento descuento_real. unfold add_debit_note.
    destruct save_ok; simpl; apply Forall_app; (split; [done|]);
      by repeat constructor.
  - intros index updated_data. unfold edit_debit_note_record.
    destruct (notas (ses a) !! index) as [n|] eqn:Hi; [|done].
    destruct save_ok; simpl; by apply Forall_insert.
  - intros index. unfold delete_debit_note_record.
    destruct (notas (ses a) !! index) as [n|] eqn:Hi; [|done].
    destruct save_ok; simpl; by apply Forall_delete.
Qed.

Lemma debit_note_fields_stay_consistent_witness :
  Forall nota_consistent
    (notas (edit_debit_note_record true 0 [NUpd_Descuento (Q2Qc 0.2)]
              ex_session).1).
Proof.
  apply (debit_note_fields_stay_consistent true
           (mk_app ex_session false false false false)).
  repeat constructor. unfold nota_consistent. simpl. f_equal.
  apply (bool_decide_unpack _). vm_compute. reflexivity.
Defined.

Lemma libras_calculadas_recalc_Some df_data d :
  libras_calculadas_recalc df_data (Some d) = libras_calculadas df_data d.
Proof.
  unfold libras_calculadas_recalc, libras_calculadas. do 2 f_equal.
  apply list_filter_iff. intros r. split; [tauto|]. intros [? ?]. eauto.
Qed.

(** X22. Editing the debit note that was just added, with no field to
    change, leaves the table of debit notes as the addition made it: the
    recomputed weight and possible discount are the ones the addition
    wrote. *)
Theorem empty_edit_of_new_debit_note
    (ok1 ok2 : bool) (fecha_nota : date) (descuento descuento_real : Qc)
    (st : session) :
  let st1 := (add_debit_note ok1 fecha_nota descuento descuento_real st).1 in
  let st2 := (edit_debit_note_record ok2 (length (notas st)) [] st1).1 in
  notas st2 = notas st1 ∧ data st2 = data st1 ∧ df st2 = df st1.
Proof.
  unfold add_debit_note.
  destruct ok1; simpl; unfold edit_debit_note_record; simpl;
    rewrite lookup_snoc_length; simpl;
    rewrite libras_calculadas_recalc_Some;
    destruct ok2; simpl; (split; [|done]);
    by rewrite insert_app_r_alt, Nat.sub_diag by done.
Qed.

(** X23. At the end of a run no flag is left set.  A deposit whose save
    succeeded is reconciled in the same run: the table is then the
    reconciliation of the old table with the new deposit list.  A deposit
    whose save failed is in the session's deposit list all the same, but
    when no other flag is set the run ends without reconciling, so that the
    table keeps the balances computed without it. *)
Theorem end_of_run_reconciles_saved_changes
    (str_isdigit : string → bool) (int_of_str : string → Z) :
  (∀ di a, let res := (end_of_run di a).1 in any_flag res.2 res.1 = false)
  ∧ (∀ fecha_d empresa agencia monto a,
       let a1 :=
         (add_deposit_record str_isdigit int_of_str true fecha_d empresa
            agencia monto a).1 in
       data (ses (end_of_run false a1).1.1)
       = recalculate_data (data (ses a)) (df (ses a1)) (notas (ses a))
       ∧ (end_of_run false a1).2 = [Save_dataframe "proveedores"])
  ∧ (∀ fecha_d empresa agencia monto a,
       any_flag false a = false →
       let a1 :=
         (add_deposit_record str_isdigit int_of_str false fecha_d empresa
            agencia monto a).1 in
       length (df (ses a1)) = S (length (df (ses a)))
       ∧ end_of_run false a1 = (a1, false, [])).
Proof.
  split; [|split].
  - intros di a. unfold end_of_run.
    destruct (any_flag di a) eqn:E; simpl; [done|].
    unfold any_flag in *. repeat (apply orb_false_iff in E as [E ?]).
    by repeat (apply orb_false_iff; split).
  - intros fecha_d empresa agencia monto a. by unfold end_of_run.
  - intros fecha_d empresa agencia monto a Hq. simpl. split.
    + rewrite length_app. simpl. lia.
    + unfold end_of_run, any_flag in *. simpl. by rewrite Hq.
Qed.

Lemma end_of_run_reconciles_saved_changes_witness :
  let a1 :=
    (add_deposit_record (λ _, false) (λ _, 0) false D1 "LIRIS SA"
       "Banco Pichincha" (Q2Qc 10)
       (mk_app ex_session false false false false)).1 in
  length (df (ses a1)) = S (length ex_deposits)
  ∧ end_of_run false a1 = (a1, false, []).
Proof.
  apply (proj2 (proj2 (end_of_run_reconciles_saved_changes (λ _, false)
                         (λ _, 0)))
           D1 "LIRIS SA" "Banco Pichincha" (Q2Qc 10)
           (mk_app ex_session false false false false)).
  reflexivity.
Defined.

(** ** 18. The balance series of the chart *)

Lemma last_valid_const (l : list cell) (q : Qc) :
  l ≠ [] → Forall (λ c, c = Num q) l → last_valid l = Num q.
Proof.
  intros Hne Hall. unfold last_valid.
  assert (last (omap (λ c, match c with Num q => Some q | NaN => None end) l)
          = Some q) as ->; [|done].
  induction Hall as [|c l -> Hall IH]; [done|].
  change (omap ?f (Num q :: l)) with (q :: omap f l).
  rewrite last_cons. destruct l as [|c' l]; [done|]. by rewrite IH.
Qed.

Lemma group_keys_strict (ks : list (option date)) :
  StronglySorted (λ a b, date_ltb a b = true) (group_keys date_leb ks).
Proof.
  assert (NoDup (group_keys date_leb ks)) as Hnd by apply NoDup_group_keys.
  assert (StronglySorted (le_of date_leb) (group_keys date_leb ks)) as Hs
    by (apply sort_values_sorted; [apply date_leb_total|apply date_leb_trans]).
  induction Hs as [|d l _ IH Hd]; [constructor|].
  apply NoDup_cons in Hnd as [Hd' Hnd]. constructor; [by apply IH|].
  rewrite Forall_forall in Hd |- *. intros x Hx.
  destruct (date_ltb d x) eqn:E; [done|]. exfalso. apply Hd'.
  assert (d = x) as ->; [|done].
  apply date_ltb_trichotomy; [done|]. apply negb_true_iff, (Hd x Hx).
Qed.

Lemma strict_sorted_unique (l1 l2 : list date) :
  StronglySorted (λ a b, date_ltb a b = true) l1 →
  StronglySorted (λ a b, date_ltb a b = true) l2 →
  (∀ x, x ∈ l1 ↔ x ∈ l2) → l1 = l2.
Proof.
  intros H1. revert l2. induction H1 as [|a l1 H1 IH Ha]; intros l2 H2 Heq.
  - destruct l2 as [|b l2]; [done|].
    assert (b ∈ []) as Hb by (apply Heq; left). by apply elem_of_nil in Hb.
  - destruct H2 as [|b l2 H2 Hb].
    { assert (a ∈ []) as Hx by (apply Heq; left). by apply elem_of_nil in Hx. }
    rewrite Forall_forall in Ha, Hb.
    assert (a = b) as ->.
    { assert (a ∈ b :: l2) as Ha' by (apply Heq; left).
      assert (b ∈ a :: l1) as Hb' by (apply Heq; left).
      apply elem_of_cons in Ha' as [?|Ha']; [done|].
      apply elem_of_cons in Hb' as [?|Hb']; [done|].
      pose proof (date_ltb_asym _ _ (Ha _ Hb')) as E.
      rewrite (Hb _ Ha') in E. done. }
    f_equal. apply IH; [done|]. intros x. split; intros Hx.
    + assert (x ∈ b :: l2) as Hx' by (apply Heq; by right).
      apply elem_of_cons in Hx' as [->|?]; [|done].
      pose proof (Ha _ Hx) as E. by rewrite date_ltb_irrefl in E.
    + assert (x ∈ b :: l1) as Hx' by (apply Heq; by right).
      apply elem_of_cons in Hx' as [->|?]; [|done].
      pose proof (Hb _ Hx) as E. by rewrite date_ltb_irrefl in E.
Qed.

(** X24. On a reconciled table the chart of the cumulative balance has one
    point for every date of an operational row, in ascending order, and the
    point of a date is the starting constant plus the adjusted daily nets of
    all operational dates up to it; this does not depend on how the sort
    orders the rows of one date.  The chart is not drawn exactly when no
    operational row has a date. *)
Theorem chart_series_is_balance_through
    (sort_by_fecha : list row → list row)
    (df_data : list row) (df_deposits : list Dep.t) (df_notes : list Nota.t) :
  (∀ l, sort_by_fecha l ≡ₚ l) →
  daily_last_saldo sort_by_fecha
    (recalculate_data df_data df_deposits df_notes)
  = if decide (daily_dates df_data = []) then None
    else Some ((λ d, (d, Num (balance_through df_data df_deposits df_notes
                                (Some d))))
                 <$> daily_dates df_data).
Proof.
  intros Hperm.
  set (out := recalculate_data df_data df_deposits df_notes).
  set (R := df_ordenado sort_by_fecha out).
  assert (∀ r0, r0 ∈ operational df_data →
            row_final df_data df_deposits df_notes r0
            ∈ filter (λ r, ¬ es_balance r) out) as A0.
  { intros r0 Hr0. apply list_elem_of_filter. split.
    - by apply list_elem_of_filter in Hr0 as [Hnb _].
    - by apply elem_of_recalculate_row_final. }
  assert (∀ r, r ∈ R →
            ∃ d, Fecha r = Some d
                 ∧ Saldo_Acumulado r
                   = Num (balance_through df_data df_deposits df_notes (Some d))
                 ∧ d ∈ daily_dates df_data) as A1.
  { intros r Hr. unfold R, df_ordenado in Hr.
    apply list_elem_of_fmap in Hr as (r1 & -> & Hr1).
    rewrite Hperm in Hr1.
    apply list_elem_of_fmap in Hr1 as (r2 & -> & Hr2).
    apply list_elem_of_filter in Hr2 as [[d Hd] Hr2].
    apply list_elem_of_filter in Hr2 as [Hnb Hr2].
    destruct (elem_of_recalculate_operational _ _ _ _ Hr2 Hnb)
      as (r0 & Hr0 & ->).
    simpl in Hd. exists d. simpl. rewrite Hd. split; [done|]. split; [done|].
    apply elem_of_daily_dates. eauto. }
  assert (∀ d, d ∈ daily_dates df_data → ∃ r, r ∈ R ∧ Fecha r = Some d) as A2.
  { intros d (r0 & Hr0 & Hd)%elem_of_daily_dates.
    eexists. split.
    - unfold R, df_ordenado. apply list_elem_of_fmap_2. rewrite Hperm.
      apply list_elem_of_fmap_2, list_elem_of_filter. split; [|by apply A0].
      simpl. rewrite Hd. eauto.
    - done. }
  assert (group_keys date_leb (Fecha <$> R) = daily_dates df_data) as KEYS.
  { apply strict_sorted_unique; try apply group_keys_strict.
    intros x. rewrite elem_of_group_keys, list_elem_of_fmap. split.
    - intros (r & E & Hr). destruct (A1 r Hr) as (d & Hd & _ & Hin).
      rewrite Hd in E. by simplify_eq.
    - intros Hx. destruct (A2 x Hx) as (r & Hr & E). eauto. }
  unfold daily_last_saldo. fold R.
  destruct (decide (filter (λ r, ¬ es_balance r) out = [])) as [E0|E0].
  { rewrite decide_True; [done|].
    destruct (daily_dates df_data) as [|d l] eqn:Ed; [done|]. exfalso.
    assert (d ∈ daily_dates df_data) as Hd by (rewrite Ed; left).
    apply elem_of_daily_dates in Hd as (r0 & Hr0 & _).
    apply A0 in Hr0. rewrite E0 in Hr0. by apply elem_of_nil in Hr0. }
  destruct (decide (R = [])) as [ER|ER].
  { rewrite decide_True; [done|]. rewrite <- KEYS, ER. done. }
  rewrite decide_False.
  2:{ intros Ed. destruct R as [|r R'] eqn:ERR; [done|].
      destruct (A1 r) as (d & _ & _ & Hd); [left|].
      rewrite Ed in Hd. by apply elem_of_nil in Hd. }
  f_equal. rewrite KEYS. apply fmap_ext_in. intros d Hd. f_equal.
  apply last_valid_const.
  - destruct (A2 d Hd) as (r & Hr & E). intros Hnil.
    assert (Saldo_Acumulado r
            ∈ Saldo_Acumulado <$> filter (λ r, Fecha r = Some d) R) as Hin.
    { apply list_elem_of_fmap_2. by apply list_elem_of_filter. }
    rewrite Hnil in Hin. by apply elem_of_nil in Hin.
  - apply Forall_fmap, Forall_forall. intros r [E Hr]%list_elem_of_filter.
    destruct (A1 r Hr) as (d' & Hd' & Hs & _). simpl. rewrite Hs.
    rewrite E in Hd'. by simplify_eq.
Qed.

Lemma chart_series_is_balance_through_witness :
  daily_last_saldo (sort_values row_leb)
    (recalculate_data ex_data ex_deposits ex_notes)
  = if decide (daily_dates ex_data = []) then None
    else Some ((λ d, (d, Num (balance_through ex_data ex_deposits ex_notes
                                (Some d))))
                 <$> daily_dates ex_data).
Proof.
  apply (chart_series_is_balance_through (sort_values row_leb) ex_data
           ex_deposits ex_notes).
  intros l. apply sort_values_perm.
Defined.
